(* ===== verification/_CoqProject ===== *)
-Q . S2P
Prelude.v
Dom.v
Traversal.v
Menu.v
MenuInv.v
Cyclic.v
Loading.v
Panel.v
Settle.v
Interaction.v
Navigation.v
Refinement.v
Init.v
Session.v
