(* ===== verification/Prelude.v ===== *)
(** * A verification of the site header dropdown (src/header.js)

    ** The program

    [src/header.js] is a single IIFE that exposes [window.initHeader].  The
    host page inserts the header markup (a trigger [#topMenuBtn] and a panel
    [#topMenuDropdown]) and calls [initHeader], any number of times.  The
    first call sets [window._headerInitDone] and, when both elements exist,
    creates a widget: a closure holding [menuLoaded] and four listeners
    (click and keydown on the trigger, click on the panel, resize on the
    window).  Clicking the trigger opens the panel; the first opening
    fetches [menu.html] ([loadMenuHtml]) while the panel shows a loading
    note, then shows the fragment with its links annotated, a "no
    navigation" note, or a failure note.  [openMenu] sets [aria-expanded],
    adds the [open] class, focuses the first item and registers two
    listeners on [document]: [outsideClickHandler] and [keyHandler] (Escape
    closes, the arrow keys move focus cyclically); [closeMenu] undoes all of
    it and returns focus to the trigger.

    ** The files

    - [Prelude] (this file): JavaScript primitives shared by all parts:
      [%] as [Z.rem] ([js_rem]), array indexing that yields [undefined]
      ([js_at]), [indexOf] ([index_of]), strict string equality [===]; their
      lemmas; the hint databases [js] and [js_rw]; [fold_left_preserves].
    - [Dom]: the panel's children as a tree of [node]s, attributes, the
      three selectors the source uses ([selector], [matches]),
      [querySelector]/[querySelectorAll] in document order ([query],
      [query_all]), [closest('a')] ([closest_a]), [contains] ([contains_id]),
      focusability ([el_focusable]), the link annotation of lines 25-30
      ([annotate_links]) and the placeholders of lines 34, 40 and 90.
    - [Traversal]: the index arithmetic of lines 74-80 ([down_index],
      [up_index], [arrow_target]) over any item type.
    - [Menu]: the widget.  Its state [menu] has one field per piece of state
      the code reads or writes: the trigger's [aria-expanded], the panel's
      [open] class, children and the Escape listeners of its links,
      [document.activeElement], the listener list of [document],
      [menuLoaded], the [loadMenuHtml] calls suspended on [fetch] and on
      [res.text()], the requests sent and the console.  Each function and
      listener of the source is one definition of the same name
      ([openMenu], [closeMenu], [outsideClickHandler], [keyHandler],
      [btnClickHandler], [btnKeydownHandler], [dropdownClickHandler],
      [linkKeydownHandler]); [loadMenuHtml] is split at its two [await]s into
      [start_fetch], [fetch_settled] and [body_settled], which end, as the
      click handler does after its [await], with [openMenu].  Event dispatch
      ([dispatch_click], [dispatch_keydown]) runs the target's listeners,
      then those of [document] as listed when the event reaches it, skipping
      the ones removed meanwhile; [btn.click()] dispatches synchronously.
      A key press ([press_key]) then runs the browser's default action
      unless a listener called [e.preventDefault()] ([keydown_prevented],
      lines 73 and 99): Enter clicks the focused trigger, link with an
      [href] or enabled button, Space the focused trigger or enabled button
      ([activates], [keydown_default]); a press is its keydown and its
      keyup together, so Space's activation on release is part of it.
      [step] is one macrotask of the event loop (a click, a key press, a
      settlement, a focus move by the user to where the browser lets focus
      rest ([focus_valid]), a resize); [reachable] is its
      reflexive-transitive closure from a state.
    - [MenuInv]: the invariant [synced] ([aria-expanded="true"] iff the
      [open] class iff exactly the two [document] listeners) and its
      preservation by every handler; the generic Section [Stable]: a
      predicate preserved by each DOM primitive, in the way the handlers
      call them, holds in every reachable state.
    - [Cyclic]: a reference cyclic navigation defined structurally on the
      item list ([succ_in], [cyc_next], [cyc_prev]) and its equivalence with
      the index arithmetic of [keyHandler].
    - [Loading]: the outcomes of [loadMenuHtml] and the facts about
      [menuLoaded] and the request count (instances of [Stable]).
    - [Panel]: the contents the panel can show after any event, and the
      panel's stability once loaded.
    - [Settle]: the weight [2 * awaiting_fetch + awaiting_body] of the
      suspended loads, which every settlement lowers, and [drain], the
      event loop delivering settlements, with fuel.
    - [Interaction]: what one user event does to an open or closed menu.
    - [Navigation]: repeated ArrowDown presses ([presses], [Nat.iter] of
      [press_key]) through the dispatch, with the walk's state as a
      Section's hypotheses.
    - [Refinement]: the abstract machine [abs_step] over [abs_menu]
      (open, loaded, loads in flight, requests sent) with the events
      Activate, KeyboardOpen, Dismiss, Settle and Stutter; the abstraction
      function [alpha] from [menu]; [seq_reachable], the runs in which the
      user waits for each load to settle before acting again.  An
      activation of the abstract machine while a load is pending starts
      another, as the code does (line 89 tests only [menuLoaded]).
    - [Init]: [initHeader] on a [window] record with [_headerInitDone], the
      element lookups and the listeners each setup binds; the host page as
      [page_event]s (calls, markup insertion, events to a widget).  The
      page is generic in its widget through the typeclass [Widget]
      (creation from the two elements, one step per event); [Menu]
      provides the instance [menu_widget], so the page-level theorems are
      proved once against the interface and applied to the real widget.
    - [Session]: the composition of [Init]'s page, [Menu]'s click
      listener and [Settle]'s event loop for the first opening of the
      menu.

    ** The theorems

    - Invariant (C1, [MenuInv.synced_reachable]): in every reachable state
      [aria-expanded], the [open] class and the [document] listeners agree,
      so no listener accumulates over open/close cycles.
    - Refinement (C2, [Refinement.refinement_step]): every step of the
      widget, also while a load is pending, is through [alpha] one step of
      the abstract machine; (C3) in runs where the user waits for loads, at
      most one request is ever sent.
    - Network (C4, C8, C13, C14): once [menuLoaded] is set no request is
      sent and it is never reset; every failure shows the failure note and
      is logged once; the fragment is shown annotated, or replaced by the
      "no navigation" note.
    - Bounds (C5): [keyHandler] never calls [focus()] on [undefined].
    - Interaction (C6, C7, C10, C11, C12, C15, C16, C17): Escape, an
      outside click, the trigger and a link close the menu and refocus the
      trigger; the trigger opens a loaded menu on its first item, or starts
      a load; the arrow keys wrap at both ends; a click in the panel off the
      links changes nothing.
    - Initialisation (C9, C25): at most one widget whatever the page does;
      a call before the markup exists disables the widget for good.
    - Composition (C18, [Session.page_first_open]): [initHeader], a click
      on the trigger and the settlements the event loop then delivers,
      whatever the network answers, leave one widget with its four
      listeners, loaded, open, [aria-expanded="true"], nothing pending and
      one request sent.
    - Navigation (C19, C20, C26, C34): [n] ArrowDown presses from outside
      visit all [n] items when each takes focus; Up undoes Down; ArrowDown
      is the reference cyclic successor and ArrowUp from an item the
      reference predecessor; an item [focus()] refuses stops the walk for
      good.
    - Behaviours the spec does not state (C21-C24): ArrowUp from outside
      the items lands on the second to last item; ArrowDown on the closed
      trigger lands on the second item; two quick clicks send two requests;
      closing the menu does not cancel a pending load, which reopens it.
    - Termination (C27, C28): settlements without user input are at most
      the weight of the suspended loads; with fuel at least that weight the
      event loop ends with no load suspended, the menu loaded and open.
    - Panel (C29, C33): the panel only ever shows its previous content, one
      of the three notes or the fetched fragment; once loaded with no load
      pending, it never changes again.
    - Default actions (C30-C32, and C2 for every key): Enter on a focused
      link closes the menu through the click it causes; Enter on the
      trigger of a closed menu opens it once (line 99 cancels the second
      toggle); Enter on the trigger of an open menu does not close it.

    Every theorem with hypotheses has a witness that applies it to a state
    reached from [demo_start] by a concrete run.  Only [Settle.drain] takes
    fuel: the event loop's settlements; fuel equal to the weight
    [2 * awaiting_fetch + awaiting_body] is enough (C28) and more changes
    nothing ([drain_fuel_irrelevant]).  Every other function is structural
    (dispatch walks the listener list, the tree walk is structural on
    nodes), so the model is total and executable by [vm_compute].  Integers are unbounded [Z]: the indices
    are at most the number of items, far below any JavaScript number limit.

    ** Not modelled

    The browser's HTML parser (the fetched text is given as its parsed
    [node] forest, so [html.trim()] is not modelled): it is the browser's
    library, and the widget only reads the forest it produces.  The URL
    resolution of line 18 ([new URL('menu.html', location.href)]) is the
    browser's URL library too; the request is counted, not addressed.  The
    [cache: 'no-store'] option changes nothing the model distinguishes,
    every response being an arbitrary settlement already;
    the default actions that change nothing the widget reads (scrolling by
    the arrow keys and Space, the navigation a link starts); the capture
    phase, which runs none of the widget's code since it binds no capture
    listener, and listeners other than the widget's; the CSS (a closed
    panel's items are taken as focusable, which the stylesheet may
    prevent).  The host page is not in
    the repository: it appears only as its markup and its calls.  The
    trigger and the panel are assumed not to contain each other and to have
    no anchor ancestor. *)

From stdpp Require Import base list strings.
From Stdlib Require Import ZArith Lia.

(** The prelude holds what every component shares: the JavaScript
    primitives the source relies on ([%], array indexing, [indexOf],
    strict string equality), their lemmas, and the hint database [js]. *)

Declare Scope js_scope.
Delimit Scope js_scope with js.
Open Scope js_scope.

(** JavaScript's [===] on strings. *)
Notation "a === b" := (String.eqb a b) (at level 70, no associativity) : js_scope.

Create HintDb js discriminated.
Create Rewrite HintDb js_rw.

(** ** JavaScript [%] on integers: the remainder truncated toward zero,
    whose sign is the sign of the dividend, i.e. [Z.rem]. *)
Definition js_rem (a b : Z) : Z := Z.rem a b.

(** ** JavaScript array indexing [xs[i]]: [undefined] (here [None]) out of
    range, negative indices included. *)
Definition js_at {A} (xs : list A) (i : Z) : option A :=
  if (i <? 0)%Z then None else xs !! Z.to_nat i.

(** ** [Array.prototype.indexOf] on element identities: the first index of
    [x], or [-1]. *)
Fixpoint index_of {A} `{EqDecision A} (x : A) (xs : list A) : Z :=
  match xs with
  | [] => (-1)%Z
  | y :: ys => if decide (x = y) then 0%Z
               else let r := index_of x ys in if (r <? 0)%Z then (-1)%Z else (r + 1)%Z
  end.

(** ** Generic lemmas *)

Lemma js_at_Some {A} (xs : list A) (i : Z) :
  (0 <= i < Z.of_nat (length xs))%Z -> is_Some (js_at xs i).
Proof.
  intros Hi. unfold js_at. destruct (Z.ltb_spec i 0); [lia|].
  apply lookup_lt_is_Some_2. lia.
Qed.

Lemma js_at_lookup {A} (xs : list A) (i : nat) :
  js_at xs (Z.of_nat i) = xs !! i.
Proof.
  unfold js_at. destruct (Z.ltb_spec (Z.of_nat i) 0); [lia|]. by rewrite Nat2Z.id.
Qed.

Lemma js_at_neg {A} (xs : list A) (i : Z) : (i < 0)%Z -> js_at xs i = None.
Proof. intros Hi. unfold js_at. by destruct (Z.ltb_spec i 0); [|lia]. Qed.

(** [%] stays in [0 .. n-1] on a non-negative dividend. *)
Lemma js_rem_range (a n : Z) : (0 <= a)%Z -> (0 < n)%Z -> (0 <= js_rem a n < n)%Z.
Proof. intros Ha Hn. unfold js_rem. rewrite Z.rem_mod_nonneg by lia.
  apply Z.mod_pos_bound; lia. Qed.

Lemma js_rem_small (a n : Z) : (0 <= a < n)%Z -> js_rem a n = a.
Proof. intros H. unfold js_rem. apply Z.rem_small. lia. Qed.

Lemma js_rem_self (n : Z) : (0 < n)%Z -> js_rem n n = 0%Z.
Proof. intros H. unfold js_rem. apply Z.rem_same. lia. Qed.

Lemma index_of_range {A} `{EqDecision A} (x : A) (xs : list A) :
  (-1 <= index_of x xs < Z.of_nat (length xs))%Z.
Proof.
  induction xs as [|y ys IH]; simpl; [lia|].
  case_decide; [lia|]. destruct (Z.ltb_spec (index_of x ys) 0); lia.
Qed.

Lemma index_of_not_in {A} `{EqDecision A} (x : A) (xs : list A) :
  x ∉ xs -> index_of x xs = (-1)%Z.
Proof.
  induction xs as [|y ys IH]; simpl; intros Hx; [done|].
  rewrite elem_of_cons in Hx. case_decide; [naive_solver|].
  rewrite IH; [done|naive_solver].
Qed.

Lemma index_of_lookup {A} `{EqDecision A} (xs : list A) (i : nat) (x : A) :
  NoDup xs -> xs !! i = Some x -> index_of x xs = Z.of_nat i.
Proof.
  revert i. induction xs as [|y ys IH]; intros i Hnd Hi; [done|].
  apply NoDup_cons in Hnd as [Hy Hnd]. destruct i as [|i]; simpl in *.
  - injection Hi as ->. by rewrite decide_True.
  - rewrite decide_False.
    + rewrite (IH i Hnd Hi). destruct (Z.ltb_spec (Z.of_nat i) 0); lia.
    + intros ->. apply Hy. eapply list_elem_of_lookup_2; eauto.
Qed.

Lemma index_of_nonneg_lookup {A} `{EqDecision A} (x : A) (xs : list A) :
  (0 <= index_of x xs)%Z -> xs !! Z.to_nat (index_of x xs) = Some x.
Proof.
  induction xs as [|y ys IH]; simpl; [lia|].
  case_decide; [by subst|].
  destruct (Z.ltb_spec (index_of x ys) 0); [lia|]. intros _.
  rewrite Z2Nat.inj_add by lia. rewrite Nat.add_comm. simpl. auto.
Qed.

#[export] Hint Resolve js_rem_range index_of_range : js.
#[export] Hint Rewrite @js_at_lookup : js_rw.

(** Turns the boolean tests of the source ([===] on literals, [<?] on
    constants) into their values. *)
Ltac js_simpl := repeat (simpl String.eqb in *; cbn [negb andb orb] in *).

(** A property every call of [f] preserves holds after a [fold_left] of [f]. *)
Lemma fold_left_preserves {A B} (P : A -> Prop) (f : A -> A) (l : list B) (a : A) :
  (forall x, P x -> P (f x)) -> P a -> P (fold_left (fun x _ => f x) l a).
Proof. intros Hf. revert a. induction l as [|b l IH]; simpl; auto. Qed.
