(* ===== verification/Dom.v ===== *)
(** * Dom: the panel's content as a DOM tree and the queries header.js runs on it

    The panel ([#topMenuDropdown]) holds a forest of nodes set through
    [innerHTML].  This file models that forest, element attributes
    ([getAttribute]/[setAttribute]), the three selectors the source passes
    to [querySelector]/[querySelectorAll] (['a'], ['ul'] and
    ['a, button, [tabindex]:not([tabindex="-1"])']), [closest('a')] and
    [contains], the link annotation of [loadMenuHtml] (lines 25-30) and the
    three placeholder fragments the source writes (lines 34, 40, 90).
    An element is identified by [el_id], its DOM object identity. *)

From stdpp Require Import base list strings.
From Stdlib Require Import ZArith Lia.
From S2P Require Import Prelude.

#[local] Set Warnings "-register-all".

(** ** Nodes and elements *)

Inductive node :=
| Elem (id : nat) (tag : string) (attrs : list (string * string)) (kids : list node)
| Text (s : string).

(** An element seen on its own, without its children. *)
Record elem := mkElem { el_id : nat; el_tag : string; el_attrs : list (string * string) }.

#[export] Instance elem_eq_dec : EqDecision elem.
Proof. solve_decision. Defined.

(** ** Attributes: [getAttribute] and [setAttribute] *)

Fixpoint get_attr (attrs : list (string * string)) (k : string) : option string :=
  match attrs with
  | [] => None
  | (k', v) :: r => if k' === k then Some v else get_attr r k
  end.

(** [setAttribute] replaces the value of an existing attribute and appends
    a new one otherwise. *)
Fixpoint set_attr (attrs : list (string * string)) (k v : string) : list (string * string) :=
  match attrs with
  | [] => [(k, v)]
  | (k', v') :: r => if k' === k then (k, v) :: r else (k', v') :: set_attr r k v
  end.

(** ** Document order: a pre-order walk, each element with its ancestors
    inside the panel (nearest first). *)

Fixpoint flatten_node (anc : list elem) (n : node) : list (elem * list elem) :=
  match n with
  | Text _ => []
  | Elem i t a ks =>
      let e := mkElem i t a in (e, anc) :: flat_map (flatten_node (e :: anc)) ks
  end.

Definition flatten (ns : list node) : list (elem * list elem) :=
  flat_map (flatten_node []) ns.

Definition elements (ns : list node) : list elem := map fst (flatten ns).

(** ** The selectors of header.js *)

Inductive selector :=
| SelA          (** ['a'] *)
| SelUl         (** ['ul'] *)
| SelFocusable. (** ['a, button, [tabindex]:not([tabindex="-1"])'] *)

Definition matches (s : selector) (e : elem) : bool :=
  match s with
  | SelA => el_tag e === "a"
  | SelUl => el_tag e === "ul"
  | SelFocusable =>
      (el_tag e === "a") || (el_tag e === "button") ||
      match get_attr (el_attrs e) "tabindex" with
      | Some v => negb (v === "-1")
      | None => false
      end
  end.

(** [querySelectorAll(s)] in document order, and [querySelector(s)] its
    first element. *)
Definition query_all (s : selector) (ns : list node) : list elem :=
  List.filter (matches s) (elements ns).

Definition query (s : selector) (ns : list node) : option elem :=
  head (query_all s ns).

(** [dropdown.contains(x)] for an element of the panel given by identity. *)
Definition contains_id (ns : list node) (id : nat) : bool :=
  existsb (fun e => Nat.eqb (el_id e) id) (elements ns).

(** The anchors that are the element [id] or one of its ancestors inside the
    panel, nearest first: [closest('a')] is the first of them. *)
Definition anchors_on_path (ns : list node) (id : nat) : list elem :=
  match list_find (fun p => el_id p.1 = id) (flatten ns) with
  | Some (_, (e, anc)) => List.filter (matches SelA) (e :: anc)
  | None => []
  end.

Definition closest_a (ns : list node) (id : nat) : option elem :=
  head (anchors_on_path ns id).

(** Whether [el.focus()] moves focus to an element the selectors above
    return: an anchor with an [href], a button that is not [disabled], or an
    element carrying [tabindex]. *)
Definition el_focusable (e : elem) : bool :=
  ((el_tag e === "a") && bool_decide (is_Some (get_attr (el_attrs e) "href"))) ||
  ((el_tag e === "button") && negb (bool_decide (is_Some (get_attr (el_attrs e) "disabled")))) ||
  bool_decide (is_Some (get_attr (el_attrs e) "tabindex")).

(** ** Link annotation of [loadMenuHtml]: [a.setAttribute('role','menuitem')]
    on every anchor (the keydown listener is recorded by the caller). *)

Definition annotate_elem (e : elem) : elem :=
  if el_tag e === "a" then mkElem (el_id e) (el_tag e) (set_attr (el_attrs e) "role" "menuitem")
  else e.

Fixpoint annotate_node (n : node) : node :=
  match n with
  | Text s => Text s
  | Elem i t a ks =>
      Elem i t (if t === "a" then set_attr a "role" "menuitem" else a) (map annotate_node ks)
  end.

Definition annotate_links (ns : list node) : list node := map annotate_node ns.

(** ** The placeholder fragments, as the browser parses their markup.
    Their single element is a [div], which no selector of the source
    matches. *)

Definition loading_note : list node :=
  [Elem 0 "div" [("class", "menu-note")] [Text "Loading navigation…"]].

Definition no_nav_note : list node :=
  [Elem 0 "div" [("class", "menu-note")] [Text "No navigation found."]].

Definition failed_note : list node :=
  [Elem 0 "div" [("class", "menu-note"); ("style", "color:#b33;")] [Text "Failed to load menu"]].

(** ** A sample fragment, shaped like the site's [menu.html]: a list of
    three links. *)

Definition sample_menu : list node :=
  [Elem 1 "ul" [] [Elem 2 "li" [] [Elem 3 "a" [("href", "index.html")] [Text "Home"]];
                    Elem 4 "li" [] [Elem 5 "a" [("href", "docs.html")] [Text "Docs"]];
                    Elem 6 "li" [] [Elem 7 "a" [("href", "about.html")] [Text "About"]]]].

(** ** Lemmas *)

(** Induction on nodes with the hypothesis on every child. *)
Lemma node_ind' (P : node -> Prop)
  (Htext : forall s, P (Text s))
  (Helem : forall i t a ks, Forall P ks -> P (Elem i t a ks)) :
  forall n, P n.
Proof.
  fix IH 1. intros [i t a ks|s]; [apply Helem|apply Htext].
  induction ks as [|k ks IHks]; constructor; [apply IH|apply IHks].
Qed.


Lemma get_set_attr_eq (a : list (string * string)) (k v : string) :
  get_attr (set_attr a k v) k = Some v.
Proof.
  induction a as [|[k' v'] r IH]; simpl; [by rewrite String.eqb_refl|].
  destruct (String.eqb_spec k' k); simpl; [by rewrite String.eqb_refl|].
  apply String.eqb_neq in n. by rewrite n.
Qed.

Lemma get_set_attr_ne (a : list (string * string)) (k k2 v : string) :
  k <> k2 -> get_attr (set_attr a k v) k2 = get_attr a k2.
Proof.
  intros Hne. induction a as [|[k' v'] r IH]; simpl.
  - apply String.eqb_neq in Hne. by rewrite Hne.
  - destruct (String.eqb_spec k' k) as [->|]; simpl.
    + apply String.eqb_neq in Hne. by rewrite Hne.
    + by rewrite IH.
Qed.

Lemma annotate_elem_id e : el_id (annotate_elem e) = el_id e.
Proof. unfold annotate_elem. by destruct (el_tag e === "a"). Qed.

Lemma annotate_elem_tag e : el_tag (annotate_elem e) = el_tag e.
Proof. unfold annotate_elem. by destruct (el_tag e === "a"). Qed.

(** Setting [role] changes no selector's verdict: the selectors look at the
    tag and at [tabindex] only. *)
Lemma matches_annotate s e : matches s (annotate_elem e) = matches s e.
Proof.
  unfold annotate_elem. destruct (el_tag e === "a") eqn:Ha; [|done].
  destruct s; simpl; try done. by rewrite get_set_attr_ne.
Qed.

Lemma annotate_mkElem i t a :
  annotate_elem (mkElem i t a) = mkElem i t (if t === "a" then set_attr a "role" "menuitem" else a).
Proof. unfold annotate_elem. simpl. by destruct (t === "a"). Qed.

Lemma flatten_node_annotate (n : node) (anc : list elem) :
  flatten_node (map annotate_elem anc) (annotate_node n) =
  map (fun p => (annotate_elem p.1, map annotate_elem p.2)) (flatten_node anc n).
Proof.
  revert anc. induction n as [s|i t a ks IH] using node_ind'; intros anc; [done|].
  simpl. rewrite <- annotate_mkElem. f_equal.
  change (annotate_elem (mkElem i t a) :: map annotate_elem anc)
    with (map annotate_elem (mkElem i t a :: anc)).
  generalize (mkElem i t a :: anc) as anc'. intros anc'.
  induction IH as [|k ks Hk Hks IHks]; simpl; [done|].
  rewrite map_app, Hk. f_equal. apply IHks.
Qed.

Lemma flatten_annotate (ns : list node) :
  flatten (annotate_links ns) =
  map (fun p => (annotate_elem p.1, map annotate_elem p.2)) (flatten ns).
Proof.
  unfold flatten, annotate_links. induction ns as [|n ns IH]; simpl; [done|].
  rewrite map_app, <- IH. by rewrite <- (flatten_node_annotate n []).
Qed.

Lemma elements_annotate (ns : list node) :
  elements (annotate_links ns) = map annotate_elem (elements ns).
Proof. unfold elements. rewrite flatten_annotate, !map_map. done. Qed.

(** Annotating the links leaves every query of the source unchanged up to
    the [role] attribute: same elements, same order, same identities. *)
Lemma query_all_annotate s (ns : list node) :
  query_all s (annotate_links ns) = map annotate_elem (query_all s ns).
Proof.
  unfold query_all. rewrite elements_annotate.
  induction (elements ns) as [|e es IH]; simpl; [done|].
  rewrite matches_annotate. destruct (matches s e); simpl; by rewrite IH.
Qed.

Lemma query_all_annotate_ids s (ns : list node) :
  map el_id (query_all s (annotate_links ns)) = map el_id (query_all s ns).
Proof.
  rewrite query_all_annotate, map_map. apply map_ext. apply annotate_elem_id.
Qed.

Lemma query_all_annotate_length s (ns : list node) :
  length (query_all s (annotate_links ns)) = length (query_all s ns).
Proof. by rewrite query_all_annotate, length_map. Qed.

Lemma query_head s (ns : list node) : query s ns = head (query_all s ns).
Proof. done. Qed.

(** The placeholders contain nothing any selector of the source matches. *)
Lemma placeholders_empty s :
  query_all s loading_note = [] /\ query_all s no_nav_note = [] /\
  query_all s failed_note = [].
Proof. destruct s; repeat split; reflexivity. Qed.

Lemma el_focusable_annotate e : el_focusable (annotate_elem e) = el_focusable e.
Proof.
  unfold annotate_elem. destruct (el_tag e === "a") eqn:Ha; [|done].
  unfold el_focusable; simpl. rewrite Ha, !get_set_attr_ne by done. done.
Qed.

#[export] Hint Rewrite query_all_annotate_ids query_all_annotate_length : js_rw.
