(* ===== verification/Traversal.v ===== *)
(** * Traversal: the arrow-key index arithmetic of [keyHandler]

    header.js, lines 74-80: with [idx = items.indexOf(document.activeElement)]
    (that is [-1] when focus is outside the items) and [n = items.length],
    ArrowDown focuses [items[(idx + 1) % n]] and ArrowUp focuses
    [items[(idx - 1 + n) % n]].  JavaScript's [%] is [Z.rem] ([js_rem]) and
    an index out of range yields [undefined] ([js_at] returns [None]), on
    which [.focus()] throws.  The theorems show the index is always in
    range, the wrap-around at both ends, that Down and Up are inverse, and
    what happens from outside the list; [Navigation] follows repeated
    presses through the widget. *)

From stdpp Require Import base list strings.
From Stdlib Require Import ZArith Lia.
From S2P Require Import Prelude.

#[local] Open Scope Z_scope.

(** [(idx + 1) % items.length] *)
Definition down_index (idx n : Z) : Z := js_rem (idx + 1) n.

(** [(idx - 1 + items.length) % items.length] *)
Definition up_index (idx n : Z) : Z := js_rem (idx - 1 + n) n.

Section Traversal.
Context {A : Type}.

(** The element an arrow key moves to: [next] (ArrowDown) or [prev]
    (any other key reaching this point, i.e. ArrowUp), lines 75-80. *)
Definition arrow_target (key : string) (items : list A) (idx : Z) : option A :=
  let n := Z.of_nat (length items) in
  if key === "ArrowDown" then js_at items (down_index idx n)
  else js_at items (up_index idx n).

End Traversal.

(** ** Range of the computed index *)

Lemma down_index_range idx n : -1 <= idx -> 0 < n -> 0 <= down_index idx n < n.
Proof. intros. apply js_rem_range; lia. Qed.

Lemma up_index_range idx n : -1 <= idx -> 1 < n \/ (n = 1 /\ idx <= 0) ->
  0 <= up_index idx n < n.
Proof.
  intros Hi Hn. unfold up_index, js_rem. destruct Hn as [Hn|[-> Hi1]].
  - apply js_rem_range; lia.
  - rewrite Z.rem_1_r. lia.
Qed.

(** The JS remainder of [-1 + 1 - 1 = -1] by 1 is [-0], which indexes like 0. *)
Lemma up_index_single idx : -1 <= idx <= 0 -> up_index idx 1 = 0.
Proof. intros. unfold up_index, js_rem. apply Z.rem_1_r. Qed.

#[export] Hint Resolve down_index_range : js.

(** ** Movement inside the list *)

Lemma down_index_next i n : 0 <= i -> i + 1 < n -> down_index i n = i + 1.
Proof. intros. apply js_rem_small. lia. Qed.

Lemma down_index_last n : 0 < n -> down_index (n - 1) n = 0.
Proof. intros. unfold down_index. replace (n - 1 + 1) with n by lia. by apply js_rem_self. Qed.

Lemma up_index_prev i n : 0 < i < n -> up_index i n = i - 1.
Proof.
  intros. unfold up_index, js_rem.
  rewrite Z.rem_mod_nonneg by lia.
  replace (i - 1 + n) with ((i - 1) + 1 * n) by lia.
  rewrite Z.mod_add by lia. apply Z.mod_small. lia.
Qed.

Lemma up_index_first n : 0 < n -> up_index 0 n = n - 1.
Proof. intros. unfold up_index. replace (0 - 1 + n) with (n - 1) by lia. apply js_rem_small. lia. Qed.

(** C20: Up undoes Down: from any item, ArrowDown then ArrowUp comes back to
    it, the wrap-around included. *)
Theorem down_up_index i n : 0 <= i < n -> up_index (down_index i n) n = i.
Proof.
  intros Hi. destruct (Z.eq_dec (i + 1) n) as [Heq|Hne].
  - subst n. replace i with (i + 1 - 1) at 1 by lia.
    rewrite down_index_last by lia. rewrite up_index_first by lia. lia.
  - rewrite down_index_next by lia. rewrite up_index_prev by lia. lia.
Qed.

(** ** Properties of the arrow keys on the item list *)

Section ArrowKeys.
Context {A : Type}.
Implicit Types (items : list A).

(** With at least one item and [idx] an [indexOf] result, both arrow
    keys pick an element. *)
Lemma arrow_target_defined key items idx :
  items <> [] -> -1 <= idx < Z.of_nat (length items) ->
  is_Some (arrow_target key items idx).
Proof.
  intros Hne Hidx. destruct items as [|x xs]; [done|].
  unfold arrow_target. destruct (key === "ArrowDown"); apply js_at_Some.
  - apply down_index_range; simpl in *; lia.
  - destruct xs as [|y ys]; simpl in *.
    + rewrite up_index_single by lia. lia.
    + apply up_index_range; lia.
Qed.

(** Down from the last item focuses the first; Up from the first item
    focuses the last. *)
Lemma arrow_wraps items :
  items <> [] ->
  arrow_target "ArrowDown" items (Z.of_nat (length items) - 1) = head items /\
  arrow_target "ArrowUp" items 0 = last items.
Proof.
  intros Hne. assert (Hn : (0 < length items)%nat) by (destruct items; simpl; [done|lia]).
  unfold arrow_target; simpl. rewrite head_lookup, last_lookup. split.
  - rewrite down_index_last by lia. apply (js_at_lookup _ 0).
  - rewrite up_index_first by lia.
    replace (Z.of_nat (length items) - 1) with (Z.of_nat (Nat.pred (length items))) by lia.
    apply js_at_lookup.
Qed.

(** Inside the list the keys move to the neighbour. *)
Lemma arrow_neighbours items (i : nat) :
  (S i < length items)%nat ->
  arrow_target "ArrowDown" items (Z.of_nat i) = items !! S i /\
  arrow_target "ArrowUp" items (Z.of_nat (S i)) = items !! i.
Proof.
  intros Hi. unfold arrow_target; simpl. split.
  - rewrite down_index_next by lia. replace (Z.of_nat i + 1) with (Z.of_nat (S i)) by lia.
    apply js_at_lookup.
  - rewrite up_index_prev by lia. replace (Z.of_nat (S i) - 1) with (Z.of_nat i) by lia.
    apply js_at_lookup.
Qed.

(** With focus outside the items ([idx = -1]) Down focuses the first item
    but Up focuses [items[n-2]], the second to last, not the last. *)
Lemma arrow_from_outside items :
  (2 <= length items)%nat ->
  arrow_target "ArrowDown" items (-1) = head items /\
  arrow_target "ArrowUp" items (-1) = items !! (length items - 2)%nat.
Proof.
  intros Hn. unfold arrow_target; simpl. rewrite head_lookup. split.
  - unfold down_index. apply (js_at_lookup _ 0).
  - unfold up_index. rewrite js_rem_small by lia.
    replace (-1 - 1 + Z.of_nat (length items)) with (Z.of_nat (length items - 2)) by lia.
    apply js_at_lookup.
Qed.
End ArrowKeys.

(** ** Instances *)

Lemma down_up_index_witness : up_index (down_index 2 3) 3 = 2.
Proof. apply down_up_index. lia. Defined.
