(* ===== verification/Menu.v ===== *)
(** * Menu: the dropdown widget created by one successful [initHeader]

    header.js, lines 14-113: the closure state ([menuLoaded]), the DOM
    state the widget reads and writes (the trigger's [aria-expanded], the
    panel's [open] class and children, the focused element, the listener
    list of [document]), and the handlers: [loadMenuHtml], [openMenu],
    [closeMenu], [outsideClickHandler], [keyHandler] and the listeners
    bound on the trigger, the panel, the links and the window.

    Events are the browser's macrotasks: a user click on a target, a
    keydown on the focused element, the settling of a pending [fetch] or
    [res.text()], and a resize.  The click handler is [async]: its part up
    to [await loadMenuHtml()] runs in the click's task, the rest when the
    network settles, which is where other events may interleave.  Event
    dispatch follows the DOM: the listeners of the target and its
    ancestors, then those of [document] as listed when the event reaches
    it, skipping those removed meanwhile. *)

From stdpp Require Import base list strings.
From Stdlib Require Import ZArith Lia.
From S2P Require Import Prelude Dom Traversal.

(** ** Data *)

(** [document.activeElement], as far as the widget can tell. *)
Inductive focus_target :=
| FocusBtn               (** the trigger [#topMenuBtn] *)
| FocusDropdown          (** the panel [#topMenuDropdown] itself *)
| FocusItem (id : nat)   (** an element of the panel's content *)
| FocusElsewhere.        (** the body or any other element of the page *)

#[export] Instance focus_target_eq_dec : EqDecision focus_target.
Proof. solve_decision. Defined.

(** The two functions the widget registers on [document]. *)
Inductive doc_handler := OutsideClickHandler | KeyHandler.

#[export] Instance doc_handler_eq_dec : EqDecision doc_handler.
Proof. solve_decision. Defined.

(** A registered listener: event type and callback. *)
Definition listener : Type := string * doc_handler.

(** Where a click lands. *)
Inductive click_target :=
| OnBtn                   (** the trigger or one of its descendants *)
| OnPanel                 (** the panel itself, outside any of its elements *)
| OnPanelElem (id : nat)  (** an element of the panel's content *)
| Outside.                (** anywhere else on the page *)

(** How a [fetch] settles: rejected, or a response with its status. *)
Inductive fetch_result :=
| FetchRejected (reason : string)
| FetchResponse (status : Z) (status_text : string).

(** How [res.text()] settles; the text is given as the fragment the browser
    parses from [html.trim()]. *)
Inductive body_result :=
| BodyRejected (reason : string)
| BodyText (fragment : list node).

(** The error [loadMenuHtml] catches. *)
Inductive load_error :=
| NetworkError (reason : string)
| HttpError (status : Z) (status_text : string)  (** [new Error(status + ' ' + statusText)] *)
| BodyError (reason : string).

(** What reaches the console. *)
Inductive log_entry :=
| MenuLoadFailed (err : load_error)   (** [console.error('Menu load failed:', err)] *)
| UncaughtTypeError.                  (** an exception escaping a listener *)

(** [res.ok] *)
Definition response_ok (status : Z) : bool := (200 <=? status)%Z && (status <=? 299)%Z.

(** ** State *)

Record menu := mkMenu {
  aria_expanded : option string;  (** [btn.getAttribute('aria-expanded')] *)
  open_class : bool;              (** [dropdown.classList.contains('open')] *)
  panel : list node;              (** the panel's children *)
  panel_focusable : bool;         (** whether the host gave the panel a [tabindex] *)
  links_bound : bool;             (** the panel's anchors carry the Escape listener *)
  active : focus_target;          (** [document.activeElement] *)
  doc_listeners : list listener;  (** [document]'s listeners, in registration order *)
  menu_loaded : bool;             (** [menuLoaded] *)
  awaiting_fetch : nat;           (** [loadMenuHtml] calls suspended on [fetch] *)
  awaiting_body : nat;            (** ... suspended on [res.text()] *)
  requests : nat;                 (** network requests issued *)
  console : list log_entry;       (** console output, oldest first *)
}.

(** ** DOM primitives *)

(** [btn.setAttribute('aria-expanded', v)] *)
Definition set_expanded (v : string) (s : menu) : menu :=
  mkMenu (Some v) (open_class s) (panel s) (panel_focusable s) (links_bound s) (active s)
    (doc_listeners s) (menu_loaded s) (awaiting_fetch s) (awaiting_body s) (requests s) (console s).

(** [dropdown.classList.add('open')] / [.remove('open')] *)
Definition set_open_class (b : bool) (s : menu) : menu :=
  mkMenu (aria_expanded s) b (panel s) (panel_focusable s) (links_bound s) (active s)
    (doc_listeners s) (menu_loaded s) (awaiting_fetch s) (awaiting_body s) (requests s) (console s).

(** [dropdown.innerHTML = ...]: new children without listeners; a focused
    element that leaves the document gives focus back to the body. *)
Definition set_inner_html (ns : list node) (s : menu) : menu :=
  mkMenu (aria_expanded s) (open_class s) ns (panel_focusable s) false
    (match active s with FocusItem _ => FocusElsewhere | f => f end)
    (doc_listeners s) (menu_loaded s) (awaiting_fetch s) (awaiting_body s) (requests s) (console s).

Definition set_active (f : focus_target) (s : menu) : menu :=
  mkMenu (aria_expanded s) (open_class s) (panel s) (panel_focusable s) (links_bound s) f
    (doc_listeners s) (menu_loaded s) (awaiting_fetch s) (awaiting_body s) (requests s) (console s).

(** [el.focus()] on an element of the panel. *)
Definition focus_elem (e : elem) (s : menu) : menu :=
  if el_focusable e then set_active (FocusItem (el_id e)) s else s.

(** [dropdown.focus()] *)
Definition focus_dropdown (s : menu) : menu :=
  if panel_focusable s then set_active FocusDropdown s else s.

Definition set_doc_listeners (ls : list listener) (s : menu) : menu :=
  mkMenu (aria_expanded s) (open_class s) (panel s) (panel_focusable s) (links_bound s) (active s)
    ls (menu_loaded s) (awaiting_fetch s) (awaiting_body s) (requests s) (console s).

(** [document.addEventListener(type, f)]: a listener already registered with
    the same type and callback is not added again. *)
Definition add_event_listener (l : listener) (s : menu) : menu :=
  if bool_decide (l ∈ doc_listeners s) then s
  else set_doc_listeners (doc_listeners s ++ [l]) s.

(** [document.removeEventListener(type, f)] *)
Definition remove_event_listener (l : listener) (s : menu) : menu :=
  set_doc_listeners (List.filter (fun l' => negb (bool_decide (l' = l))) (doc_listeners s)) s.

Definition log (e : log_entry) (s : menu) : menu :=
  mkMenu (aria_expanded s) (open_class s) (panel s) (panel_focusable s) (links_bound s) (active s)
    (doc_listeners s) (menu_loaded s) (awaiting_fetch s) (awaiting_body s) (requests s)
    (console s ++ [e]).

(** [menuLoaded = b] *)
Definition set_loaded (b : bool) (s : menu) : menu :=
  mkMenu (aria_expanded s) (open_class s) (panel s) (panel_focusable s) (links_bound s) (active s)
    (doc_listeners s) b (awaiting_fetch s) (awaiting_body s) (requests s) (console s).

(** The counts of suspended [loadMenuHtml] calls. *)
Definition set_awaiting (nf nb : nat) (s : menu) : menu :=
  mkMenu (aria_expanded s) (open_class s) (panel s) (panel_focusable s) (links_bound s) (active s)
    (doc_listeners s) (menu_loaded s) nf nb (requests s) (console s).

(** Lines 18-19 up to the first [await]: [fetch(url, { cache: 'no-store' })]
    sends a request and [loadMenuHtml] suspends on it. *)
Definition start_fetch (s : menu) : menu :=
  mkMenu (aria_expanded s) (open_class s) (panel s) (panel_focusable s) (links_bound s) (active s)
    (doc_listeners s) (menu_loaded s) (S (awaiting_fetch s)) (awaiting_body s) (S (requests s))
    (console s).

(** Lines 25-30: every anchor gets [role="menuitem"] and the Escape
    keydown listener. *)
Definition bind_links (s : menu) : menu :=
  mkMenu (aria_expanded s) (open_class s) (annotate_links (panel s)) (panel_focusable s) true
    (active s) (doc_listeners s) (menu_loaded s) (awaiting_fetch s) (awaiting_body s)
    (requests s) (console s).

(** ** Handlers *)

(** Lines 49-50: focus the first focusable element of the panel, or else
    the panel itself. *)
Definition focus_first (s : menu) : menu :=
  match query SelFocusable (panel s) with
  | Some first => focus_elem first s
  | None => focus_dropdown s
  end.

(** [openMenu], lines 45-53. *)
Definition openMenu (s : menu) : menu :=
  let s := set_expanded "true" s in
  let s := set_open_class true s in
  let s := focus_first s in
  let s := add_event_listener ("click", OutsideClickHandler) s in
  add_event_listener ("keydown", KeyHandler) s.

(** [closeMenu], lines 55-61 ([btn.focus()] on the trigger button cannot
    throw). *)
Definition closeMenu (s : menu) : menu :=
  let s := set_expanded "false" s in
  let s := set_open_class false s in
  let s := set_active FocusBtn s in
  let s := remove_event_listener ("click", OutsideClickHandler) s in
  remove_event_listener ("keydown", KeyHandler) s.

(** [dropdown.contains(e.target)] and [btn.contains(e.target)]. *)
Definition in_dropdown (s : menu) (t : click_target) : bool :=
  match t with
  | OnPanel => true
  | OnPanelElem id => contains_id (panel s) id
  | _ => false
  end.

Definition in_btn (t : click_target) : bool :=
  match t with OnBtn => true | _ => false end.

(** [outsideClickHandler], lines 63-65. *)
Definition outsideClickHandler (t : click_target) (s : menu) : menu :=
  if negb (in_dropdown s t) && negb (in_btn t) then closeMenu s else s.

(** [items.indexOf(document.activeElement)], line 74. *)
Definition active_index (f : focus_target) (items : list elem) : Z :=
  match f with
  | FocusItem id => index_of id (map el_id items)
  | _ => (-1)%Z
  end.

(** [keyHandler], lines 67-83.  [None] is the [TypeError] of calling
    [.focus()] on [undefined]. *)
Definition keyHandler (key : string) (s : menu) : option menu :=
  if key === "Escape" then Some (closeMenu s)
  else if ((key === "ArrowDown") || (key === "ArrowUp")) && open_class s then
    let items := query_all SelFocusable (panel s) in
    if Nat.eqb (length items) 0 then Some s
    else match arrow_target key items (active_index (active s) items) with
         | Some e => Some (focus_elem e s)
         | None => None
         end
  else Some s.

(** The trigger's click listener, lines 85-94, up to its [await]: it closes
    an open menu, opens a loaded one, and otherwise shows the loading note
    and calls [loadMenuHtml]. *)
Definition btnClickHandler (s : menu) : menu :=
  if bool_decide (aria_expanded s = Some "true") then closeMenu s
  else if menu_loaded s then openMenu s
  else start_fetch (set_inner_html loading_note s).

(** The [catch] block of [loadMenuHtml], lines 38-42. *)
Definition load_failed (err : load_error) (s : menu) : menu :=
  set_loaded true (set_inner_html failed_note (log (MenuLoadFailed err) s)).

(** The [try] block of [loadMenuHtml] after the body is read, lines 22-37. *)
Definition load_succeeded (frag : list node) (s : menu) : menu :=
  let s := bind_links (set_inner_html frag s) in
  let s := if bool_decide (query SelUl (panel s) = None) &&
              Nat.eqb (length (query_all SelA (panel s))) 0
           then set_inner_html no_nav_note s else s in
  set_loaded true s.

(** A suspended [fetch] settles (line 19).  A rejection or a status that is
    not [ok] (line 20) goes to the [catch] block; then [loadMenuHtml]
    returns and the click handler resumes with [openMenu()] (line 93) in
    the same task.  An [ok] response suspends on [res.text()] (line 21). *)
Definition fetch_settled (r : fetch_result) (s : menu) : menu :=
  let s := set_awaiting (pred (awaiting_fetch s)) (awaiting_body s) s in
  match r with
  | FetchRejected why => openMenu (load_failed (NetworkError why) s)
  | FetchResponse st txt =>
      if response_ok st then set_awaiting (awaiting_fetch s) (S (awaiting_body s)) s
      else openMenu (load_failed (HttpError st txt) s)
  end.

(** A suspended [res.text()] settles (line 21), then the rest of
    [loadMenuHtml] and [openMenu()] (line 93). *)
Definition body_settled (b : body_result) (s : menu) : menu :=
  let s := set_awaiting (awaiting_fetch s) (pred (awaiting_body s)) s in
  match b with
  | BodyRejected why => openMenu (load_failed (BodyError why) s)
  | BodyText frag => openMenu (load_succeeded frag s)
  end.

(** The panel's click listener, lines 107-110 ([closest('a')] finds no
    anchor above the panel). *)
Definition dropdownClickHandler (t : click_target) (s : menu) : menu :=
  match t with
  | OnPanelElem id => match closest_a (panel s) id with Some _ => closeMenu s | None => s end
  | _ => s
  end.

(** The keydown listener of every annotated link, lines 27-29. *)
Definition linkKeydownHandler (key : string) (s : menu) : menu :=
  if key === "Escape" then closeMenu s else s.

(** ** Event dispatch *)

Inductive dom_event :=
| ClickEvent (t : click_target)
| KeydownEvent (key : string).

Definition event_type (ev : dom_event) : string :=
  match ev with ClickEvent _ => "click" | KeydownEvent _ => "keydown" end.

(** Running one of the widget's [document] listeners.  An exception thrown
    by [keyHandler] is reported on the console and dispatch goes on. *)
Definition run_doc_handler (h : doc_handler) (ev : dom_event) (s : menu) : menu :=
  match h, ev with
  | OutsideClickHandler, ClickEvent t => outsideClickHandler t s
  | KeyHandler, KeydownEvent k =>
      match keyHandler k s with Some s' => s' | None => log UncaughtTypeError s end
  | _, _ => s
  end.

(** The listeners of [document] listed when the event reaches it, run in
    order; one removed meanwhile is skipped. *)
Fixpoint invoke_doc (ev : dom_event) (listed : list listener) (s : menu) : menu :=
  match listed with
  | [] => s
  | l :: rest =>
      let s := if (l.1 === event_type ev) && bool_decide (l ∈ doc_listeners s)
               then run_doc_handler l.2 ev s else s in
      invoke_doc ev rest s
  end.

Definition document_phase (ev : dom_event) (s : menu) : menu :=
  invoke_doc ev (doc_listeners s) s.

(** A click: the trigger's or the panel's listener at the target, then
    [document]'s.  The trigger and the panel are not inside each other. *)
Definition dispatch_click (t : click_target) (s : menu) : menu :=
  let s := match t with
           | OnBtn => btnClickHandler s
           | OnPanel | OnPanelElem _ => dropdownClickHandler t s
           | Outside => s
           end in
  document_phase (ClickEvent t) s.

(** The trigger's keydown listener, lines 97-104: [btn.click()] dispatches a
    click synchronously. *)
Definition btnKeydownHandler (key : string) (s : menu) : menu :=
  if (key === "ArrowDown") || (key === "Enter") || (key === " ") then
    let s := if open_class s then s else dispatch_click OnBtn s in
    match query SelFocusable (panel s) with
    | Some first => focus_elem first s
    | None => s
    end
  else s.

(** A keydown goes to the focused element: the trigger's listener, or the
    listeners of the annotated anchors on the focused element's path. *)
Definition keydown_target_phase (key : string) (s : menu) : menu :=
  match active s with
  | FocusBtn => btnKeydownHandler key s
  | FocusItem id =>
      if links_bound s
      then fold_left (fun s _ => linkKeydownHandler key s) (anchors_on_path (panel s) id) s
      else s
  | _ => s
  end.

(** Then the listeners of [document]. *)
Definition dispatch_keydown (key : string) (s : menu) : menu :=
  document_phase (KeydownEvent key) (keydown_target_phase key s).

(** ** Default actions *)

(** [keyHandler] calls [e.preventDefault()] (line 73) on an arrow key when
    the panel is open and has items. *)
Definition keyHandler_prevents (key : string) (s : menu) : bool :=
  ((key === "ArrowDown") || (key === "ArrowUp")) && open_class s &&
  negb (Nat.eqb (length (query_all SelFocusable (panel s))) 0).

(** Whether a listener cancelled the keydown: the trigger's listener for
    its three keys (line 99), or [keyHandler], which runs on the state the
    target phase left when it is registered on [document] then. *)
Definition keydown_prevented (key : string) (target : focus_target) (s1 : menu) : bool :=
  (bool_decide (target = FocusBtn) && ((key === "ArrowDown") || (key === "Enter") || (key === " "))) ||
  (bool_decide (("keydown", KeyHandler) ∈ doc_listeners s1) && keyHandler_prevents key s1).

(** The element of the panel with identity [id], as [anchors_on_path]
    finds it. *)
Definition find_elem (ns : list node) (id : nat) : option elem :=
  match list_find (fun p => el_id p.1 = id) (flatten ns) with
  | Some (_, (e, _)) => Some e
  | None => None
  end.

(** The elements a key activates: Enter a link with an [href] or a button
    that is not disabled, Space (on its release, which ends the same
    press) a button that is not disabled; Space on a link scrolls the page. *)
Definition activates (key : string) (e : elem) : bool :=
  let enabled_button :=
    (el_tag e === "button") && negb (bool_decide (is_Some (get_attr (el_attrs e) "disabled"))) in
  if key === "Enter" then
    ((el_tag e === "a") && bool_decide (is_Some (get_attr (el_attrs e) "href"))) || enabled_button
  else if key === " " then enabled_button
  else false.

(** The default action of a key press that no listener cancelled: Enter
    or Space on the trigger, or a key that activates the focused element
    of the panel, clicks it (the navigation a link then starts, and the
    scrolling of the other keys, are not modelled). *)
Definition keydown_default (key : string) (target : focus_target) (s : menu) : menu :=
  match target with
  | FocusBtn => if (key === "Enter") || (key === " ") then dispatch_click OnBtn s else s
  | FocusItem id =>
      match find_elem (panel s) id with
      | Some e => if activates key e then dispatch_click (OnPanelElem id) s else s
      | None => s
      end
  | _ => s
  end.

(** A key press: dispatch, then the default action unless cancelled. *)
Definition press_key (key : string) (s : menu) : menu :=
  let s1 := keydown_target_phase key s in
  let s2 := document_phase (KeydownEvent key) s1 in
  if keydown_prevented key (active s) s1 then s2 else keydown_default key (active s) s2.

(** ** Steps *)

Inductive event :=
| UserClick (t : click_target)
| UserKeydown (key : string)
| FetchSettles (r : fetch_result)
| BodySettles (b : body_result)
| UserFocus (f : focus_target)   (** Tab or a mouse press moves focus; no listener runs *)
| WindowResize.

(** Whether focus may rest on [f] in [s], as the browser decides: an
    element of the panel that [focus()] accepts, the panel only with a
    [tabindex], the trigger or anything outside the widget. *)
Definition focus_valid (s : menu) : bool :=
  match active s with
  | FocusItem id => existsb (fun e => Nat.eqb (el_id e) id && el_focusable e) (elements (panel s))
  | FocusDropdown => panel_focusable s
  | FocusBtn | FocusElsewhere => true
  end.

(** One macrotask.  A settling needs a suspended call; the user moves
    focus only to where the browser lets it rest, and the widget listens
    to no focus event; the resize listener (line 113) does nothing. *)
Definition step (ev : event) (s : menu) : option menu :=
  match ev with
  | UserClick t => Some (dispatch_click t s)
  | UserKeydown k => Some (press_key k s)
  | FetchSettles r => match awaiting_fetch s with O => None | S _ => Some (fetch_settled r s) end
  | BodySettles b => match awaiting_body s with O => None | S _ => Some (body_settled b s) end
  | UserFocus f => if focus_valid (set_active f s) then Some (set_active f s) else None
  | WindowResize => Some s
  end.

Fixpoint run (evs : list event) (s : menu) : option menu :=
  match evs with
  | [] => Some s
  | ev :: rest => s' ← step ev s; run rest s'
  end.

(** The widget right after [initHeader]: the host's [aria-expanded], the
    panel's initial content and whether it is focusable; the panel closed,
    nothing loaded, no [document] listener. *)
Definition initial (expanded0 : option string) (content0 : list node) (tabbable : bool) : menu :=
  mkMenu expanded0 false content0 tabbable false FocusElsewhere [] false 0 0 0 [].

Inductive reachable (s0 : menu) : menu -> Prop :=
| reach_init : reachable s0 s0
| reach_step ev s s' : reachable s0 s -> step ev s = Some s' -> reachable s0 s'.
