(* ===== verification/MenuInv.v ===== *)
(** * MenuInv: the state invariant of the widget

    The trigger's [aria-expanded], the panel's [open] class and the
    [document] listeners move together: [openMenu] sets all three and
    [closeMenu] clears all three, and no other operation touches them.
    [synced] states it; every handler preserves it, hence every reachable
    state satisfies it.  The proofs go through the projection [ui] of a
    state on those three fields. *)

From stdpp Require Import base list strings.
From Stdlib Require Import ZArith Lia.
From S2P Require Import Prelude Dom Traversal Menu.

Create HintDb menu discriminated.
Create HintDb stable discriminated.

(** The listeners an open (resp. closed) menu has on [document]. *)
Definition listeners_for (b : bool) : list listener :=
  if b then [("click", OutsideClickHandler); ("keydown", KeyHandler)] else [].

(** The three fields [openMenu] and [closeMenu] change. *)
Definition ui (s : menu) : option string * bool * list listener :=
  (aria_expanded s, open_class s, doc_listeners s).

(** The invariant: [aria-expanded="true"] iff the [open] class is present
    iff the two [document] listeners are registered (and nothing else). *)
Definition synced (s : menu) : Prop :=
  bool_decide (aria_expanded s = Some "true") = open_class s /\
  doc_listeners s = listeners_for (open_class s).

(** ** Sample states, reached from a host page with [aria-expanded="false"]
    and an empty panel, used to instantiate the theorems. *)

Definition demo_start : menu := initial (Some "false") [] false.

Definition demo_ok : list event :=
  [FetchSettles (FetchResponse 200 "OK"); BodySettles (BodyText sample_menu)].

(** After the first click: the loading note, one request pending. *)
Definition demo_pending : menu := default demo_start (run [UserClick OnBtn] demo_start).

(** After the response arrived, the body still being read. *)
Definition demo_reading : menu :=
  default demo_start (run [UserClick OnBtn; FetchSettles (FetchResponse 200 "OK")] demo_start).

(** The menu loaded and open, focus on its first link. *)
Definition demo_open : menu := default demo_start (run (UserClick OnBtn :: demo_ok) demo_start).

(** The menu loaded, then closed from the trigger. *)
Definition demo_closed : menu :=
  default demo_start (run (UserClick OnBtn :: demo_ok ++ [UserClick OnBtn]) demo_start).

(** ** Operations that leave [ui] alone *)

Create Rewrite HintDb ui_rw.

Section Frame.
Context (s : menu).

Lemma ui_set_inner_html ns : ui (set_inner_html ns s) = ui s.  Proof. done. Qed.
Lemma ui_set_active f : ui (set_active f s) = ui s.  Proof. done. Qed.
Lemma ui_focus_elem e : ui (focus_elem e s) = ui s.
Proof. unfold focus_elem. by case_match. Qed.
Lemma ui_focus_dropdown : ui (focus_dropdown s) = ui s.
Proof. unfold focus_dropdown. by case_match. Qed.
Lemma ui_focus_first : ui (focus_first s) = ui s.
Proof. unfold focus_first. case_match; [apply ui_focus_elem|apply ui_focus_dropdown]. Qed.
Lemma ui_log le : ui (log le s) = ui s.  Proof. done. Qed.
Lemma ui_set_loaded b : ui (set_loaded b s) = ui s.  Proof. done. Qed.
Lemma ui_set_awaiting nf nb : ui (set_awaiting nf nb s) = ui s.  Proof. done. Qed.
Lemma ui_start_fetch : ui (start_fetch s) = ui s.  Proof. done. Qed.
Lemma ui_bind_links : ui (bind_links s) = ui s.  Proof. done. Qed.
End Frame.

#[export] Hint Rewrite ui_set_inner_html ui_set_active ui_focus_elem ui_focus_dropdown
  ui_focus_first ui_log ui_set_loaded ui_set_awaiting ui_start_fetch ui_bind_links : ui_rw.

Lemma synced_ui s s' : ui s' = ui s -> synced s -> synced s'.
Proof. unfold ui, synced. intros Heq. injection Heq as -> -> ->. done. Qed.

Lemma ui_load_failed err s : ui (load_failed err s) = ui s.
Proof. unfold load_failed. by autorewrite with ui_rw. Qed.

Lemma ui_load_succeeded frag s : ui (load_succeeded frag s) = ui s.
Proof. unfold load_succeeded. case_match; by autorewrite with ui_rw. Qed.

#[export] Hint Rewrite ui_load_failed ui_load_succeeded : ui_rw.

(** Any operation that leaves [ui] alone preserves [synced]. *)
#[export] Hint Extern 3 (synced _) =>
  (eapply synced_ui; [autorewrite with ui_rw; reflexivity|]) : menu.

(** ** [openMenu] and [closeMenu] *)

Lemma synced_listeners s :
  synced s -> doc_listeners s = [] \/ doc_listeners s = listeners_for true.
Proof. intros [_ ->]. destruct (open_class s); auto. Qed.

Lemma ui_openMenu s :
  doc_listeners s = [] \/ doc_listeners s = listeners_for true ->
  ui (openMenu s) = (Some "true", true, listeners_for true).
Proof.
  intros Hl. unfold openMenu.
  pose proof (ui_focus_first (set_open_class true (set_expanded "true" s))) as Hf.
  destruct (focus_first _) as [x o p pf lb a ls ml af ab rq c]; unfold ui in *; simpl in *.
  injection Hf as -> -> ->. destruct Hl as [-> | ->]; reflexivity.
Qed.

Lemma ui_closeMenu s :
  doc_listeners s = [] \/ doc_listeners s = listeners_for true ->
  ui (closeMenu s) = (Some "false", false, []).
Proof. intros [Hl | Hl]; unfold closeMenu, ui; simpl; by rewrite Hl. Qed.

Lemma synced_openMenu s : synced s -> synced (openMenu s).
Proof.
  intros Hs. eapply synced_ui with (s := set_expanded "true" (set_open_class true
    (set_doc_listeners (listeners_for true) s))); [|done].
  by rewrite ui_openMenu by auto using synced_listeners.
Qed.

Lemma synced_closeMenu s : synced s -> synced (closeMenu s).
Proof.
  intros Hs. eapply synced_ui with (s := set_expanded "false" (set_open_class false
    (set_doc_listeners [] s))); [|done].
  by rewrite ui_closeMenu by auto using synced_listeners.
Qed.

#[export] Hint Resolve synced_openMenu synced_closeMenu : menu.

(** ** Every handler preserves [synced] *)

Ltac synced_cases := repeat (case_match || case_bool_decide); simplify_eq; eauto 4 with menu.

Lemma synced_btnClickHandler s : synced s -> synced (btnClickHandler s).
Proof. intros Hs. unfold btnClickHandler. synced_cases. Qed.

Lemma synced_fetch_settled r s : synced s -> synced (fetch_settled r s).
Proof. intros Hs. unfold fetch_settled. synced_cases. Qed.

Lemma synced_body_settled b s : synced s -> synced (body_settled b s).
Proof. intros Hs. unfold body_settled. synced_cases. Qed.

Lemma synced_keyHandler k s s' : synced s -> keyHandler k s = Some s' -> synced s'.
Proof. intros Hs. unfold keyHandler. intros H. synced_cases. Qed.

Lemma synced_outsideClickHandler t s : synced s -> synced (outsideClickHandler t s).
Proof. intros Hs. unfold outsideClickHandler. synced_cases. Qed.

Lemma synced_dropdownClickHandler t s : synced s -> synced (dropdownClickHandler t s).
Proof. intros Hs. unfold dropdownClickHandler. synced_cases. Qed.

Lemma synced_linkKeydownHandler k s : synced s -> synced (linkKeydownHandler k s).
Proof. intros Hs. unfold linkKeydownHandler. synced_cases. Qed.

#[export] Hint Resolve synced_btnClickHandler synced_fetch_settled synced_body_settled
  synced_outsideClickHandler synced_dropdownClickHandler synced_linkKeydownHandler : menu.

Lemma synced_run_doc_handler h ev s : synced s -> synced (run_doc_handler h ev s).
Proof.
  intros Hs. destruct h, ev; simpl; auto with menu.
  destruct (keyHandler key s) eqn:E; eauto using synced_keyHandler with menu.
Qed.

Lemma synced_invoke_doc ev ls s : synced s -> synced (invoke_doc ev ls s).
Proof.
  revert s. induction ls as [|l ls IH]; intros s Hs; simpl; [done|].
  apply IH. case_match; auto using synced_run_doc_handler.
Qed.

#[export] Hint Resolve synced_invoke_doc : menu.

Lemma synced_dispatch_click t s : synced s -> synced (dispatch_click t s).
Proof. intros Hs. unfold dispatch_click, document_phase. apply synced_invoke_doc. synced_cases. Qed.

#[export] Hint Resolve synced_dispatch_click : menu.

Lemma synced_btnKeydownHandler k s : synced s -> synced (btnKeydownHandler k s).
Proof. intros Hs. unfold btnKeydownHandler. synced_cases. Qed.

Lemma synced_keydown_target_phase k s : synced s -> synced (keydown_target_phase k s).
Proof.
  intros Hs. unfold keydown_target_phase.
  repeat case_match; auto using synced_btnKeydownHandler.
  apply fold_left_preserves; auto with menu.
Qed.

Lemma synced_dispatch_keydown k s : synced s -> synced (dispatch_keydown k s).
Proof. intros Hs. apply synced_invoke_doc, synced_keydown_target_phase, Hs. Qed.

Lemma synced_keydown_default k f s : synced s -> synced (keydown_default k f s).
Proof. intros Hs. unfold keydown_default. repeat case_match; auto with menu. Qed.

Lemma synced_press_key k s : synced s -> synced (press_key k s).
Proof.
  intros Hs. unfold press_key, document_phase. pose proof (synced_keydown_target_phase k s Hs).
  case_match; auto using synced_keydown_default with menu.
Qed.

Lemma synced_step ev s s' : synced s -> step ev s = Some s' -> synced s'.
Proof.
  intros Hs. destruct ev; simpl; intros; repeat case_match; simplify_eq;
    auto using synced_press_key with menu.
Qed.

Lemma run_reachable s0 evs s : run evs s0 = Some s -> reachable s0 s.
Proof.
  enough (forall s1, reachable s0 s1 -> run evs s1 = Some s -> reachable s0 s) by
    (apply H; constructor).
  induction evs as [|ev evs IH]; intros s1 H1 Hrun; simpl in Hrun; [by simplify_eq|].
  destruct (step ev s1) eqn:E; [|done]. eapply IH; [|done]. econstructor; eauto.
Qed.

Lemma synced_run evs s s' : synced s -> run evs s = Some s' -> synced s'.
Proof. intros Hs Hr. apply run_reachable in Hr. induction Hr; eauto using synced_step. Qed.

Lemma synced_initial e0 c0 t : e0 <> Some "true" -> synced (initial e0 c0 t).
Proof. intros He. split; [|done]. simpl. by case_bool_decide. Qed.

(** ** The invariant on every reachable state *)

(** C1: starting from a host page whose trigger does not already claim
    [aria-expanded="true"], in every state the widget reaches through any
    interleaving of clicks, keys, network settlements and resizes, the
    trigger says [aria-expanded="true"] exactly when the panel has the
    [open] class, and [document] then carries exactly the outside-click and
    key listeners (and none when closed): no listener accumulates. *)
Theorem synced_reachable e0 c0 t s :
  e0 <> Some "true" -> reachable (initial e0 c0 t) s -> synced s.
Proof. intros He Hr. induction Hr; eauto using synced_initial, synced_step. Qed.

Lemma synced_reachable_witness : synced demo_open.
Proof.
  apply (synced_reachable (Some "false") [] false); [discriminate|].
  apply run_reachable with (evs := UserClick OnBtn :: demo_ok). vm_compute. reflexivity.
Defined.

(** ** [keyHandler] never throws *)

Lemma active_index_range f (items : list elem) :
  (-1 <= active_index f items < Z.of_nat (length items))%Z.
Proof.
  destruct f; simpl; try lia.
  pose proof (index_of_range id (map el_id items)). rewrite length_map in H. lia.
Qed.

(** [keyHandler] returns normally on every key and state. *)
Lemma keyHandler_is_Some k s : is_Some (keyHandler k s).
Proof.
  unfold keyHandler.
  destruct (k === "Escape"); [eauto|]. destruct (_ && _); [|eauto].
  destruct (Nat.eqb_spec (length (query_all SelFocusable (panel s))) 0) as [|Hn]; [eauto|].
  destruct (arrow_target_defined k (query_all SelFocusable (panel s))
              (active_index (active s) (query_all SelFocusable (panel s)))) as [e ->].
  - by intros Hnil; rewrite Hnil in Hn.
  - apply active_index_range.
  - eauto.
Qed.

(** C5: whatever the key, the focus and the panel's content, [keyHandler]
    returns normally: the index it computes is always inside [items], so
    [next.focus()] / [prev.focus()] is never called on [undefined]. *)
Theorem keyHandler_never_throws k s : keyHandler k s <> None.
Proof. destruct (keyHandler_is_Some k s) as [s' ->]. discriminate. Qed.

Lemma run_doc_handler_key k s :
  run_doc_handler KeyHandler (KeydownEvent k) s = default s (keyHandler k s).
Proof. simpl. destruct (keyHandler_is_Some k s) as [s' ->]. done. Qed.

(** ** Predicates every handler preserves

    A predicate that survives each DOM primitive, in the way the handlers
    use it ([menuLoaded] is only ever set to [true], a request is only sent
    while [menuLoaded] is [false], only load failures are logged), holds in
    every reachable state. *)

Section Stable.
Context (P : menu -> Prop).
Hypothesis P_set_expanded : forall v s, P s -> P (set_expanded v s).
Hypothesis P_set_open_class : forall b s, P s -> P (set_open_class b s).
Hypothesis P_set_inner_html : forall ns s, P s -> P (set_inner_html ns s).
Hypothesis P_set_active : forall f s, P s -> P (set_active f s).
Hypothesis P_set_doc_listeners : forall ls s, P s -> P (set_doc_listeners ls s).
Hypothesis P_set_loaded : forall s, P s -> P (set_loaded true s).
Hypothesis P_set_awaiting : forall nf nb s, P s -> P (set_awaiting nf nb s).
Hypothesis P_start_fetch : forall s, menu_loaded s = false -> P s -> P (start_fetch s).
Hypothesis P_bind_links : forall s, P s -> P (bind_links s).
Hypothesis P_log_failure : forall e s, P s -> P (log (MenuLoadFailed e) s).

#[local] Hint Resolve P_set_expanded P_set_open_class P_set_inner_html P_set_active
  P_set_doc_listeners P_set_loaded P_set_awaiting P_bind_links P_log_failure : stable.

Ltac stable_cases := repeat (case_match || case_bool_decide); simplify_eq; eauto 8 with stable.

Lemma P_focus_first s : P s -> P (focus_first s).
Proof. intros. unfold focus_first, focus_elem, focus_dropdown. stable_cases. Qed.
Lemma P_add_event_listener l s : P s -> P (add_event_listener l s).
Proof. intros. unfold add_event_listener. stable_cases. Qed.
Lemma P_remove_event_listener l s : P s -> P (remove_event_listener l s).
Proof. intros. unfold remove_event_listener. stable_cases. Qed.
#[local] Hint Resolve P_focus_first P_add_event_listener P_remove_event_listener : stable.

Lemma P_openMenu s : P s -> P (openMenu s).
Proof. intros. unfold openMenu. stable_cases. Qed.
Lemma P_closeMenu s : P s -> P (closeMenu s).
Proof. intros. unfold closeMenu. stable_cases. Qed.
#[local] Hint Resolve P_openMenu P_closeMenu : stable.

Lemma P_btnClickHandler s : P s -> P (btnClickHandler s).
Proof. intros. unfold btnClickHandler. stable_cases. Qed.
Lemma P_fetch_settled r s : P s -> P (fetch_settled r s).
Proof. intros. unfold fetch_settled, load_failed. stable_cases. Qed.
Lemma P_body_settled b s : P s -> P (body_settled b s).
Proof. intros. unfold body_settled, load_failed, load_succeeded. stable_cases. Qed.
Lemma P_keyHandler k s s' : P s -> keyHandler k s = Some s' -> P s'.
Proof. intros ? Hk. unfold keyHandler, focus_elem in Hk. stable_cases. Qed.
#[local] Hint Resolve P_btnClickHandler P_fetch_settled P_body_settled : stable.

Lemma P_invoke_doc ev ls s : P s -> P (invoke_doc ev ls s).
Proof.
  revert s. induction ls as [|l ls IH]; intros s Hs; simpl; [done|]. apply IH.
  case_match; [|done]. destruct l as [ty []], ev as [t|k]; simpl; try done.
  - unfold outsideClickHandler. stable_cases.
  - destruct (keyHandler_is_Some k s) as [s' E]. rewrite E. eauto using P_keyHandler.
Qed.
#[local] Hint Resolve P_invoke_doc : stable.

Lemma P_dispatch_click t s : P s -> P (dispatch_click t s).
Proof. intros. unfold dispatch_click, document_phase, dropdownClickHandler. stable_cases. Qed.
#[local] Hint Resolve P_dispatch_click : stable.

Lemma P_keydown_target_phase k s : P s -> P (keydown_target_phase k s).
Proof.
  intros. unfold keydown_target_phase, btnKeydownHandler, focus_elem.
  stable_cases. apply fold_left_preserves; [|done].
  intros; unfold linkKeydownHandler; stable_cases.
Qed.

Lemma P_press_key k s : P s -> P (press_key k s).
Proof.
  intros Hs. unfold press_key, keydown_default, document_phase.
  pose proof (P_keydown_target_phase k s Hs). stable_cases.
Qed.

Lemma P_step ev s s' : P s -> step ev s = Some s' -> P s'.
Proof. intros ? Hs. destruct ev; simpl in Hs; stable_cases; auto using P_press_key. Qed.

Lemma stable_reachable s0 s : P s0 -> reachable s0 s -> P s.
Proof. intros H0 Hr. induction Hr; eauto using P_step. Qed.
End Stable.

(** [synced] of a concrete state, by evaluation. *)
Ltac synced_by_computation := split; vm_compute; reflexivity.
