(* ===== verification/Cyclic.v ===== *)
(** * Cyclic: the arrow keys against a reference cyclic navigation

    The index arithmetic of [keyHandler] (lines 74-80, [Traversal]) is
    compared with a reference definition that uses no arithmetic: the item
    after the focused one in document order, the first one after the last
    or when focus is outside the items ([cyc_next]); the item before it, the
    last one before the first ([cyc_prev]).  [succ_in] walks the list
    structurally.  ArrowDown agrees with [cyc_next] everywhere; ArrowUp
    agrees with [cyc_prev] whenever focus is on an item (from outside it
    lands on the second to last item, see [Interaction]). *)

From stdpp Require Import base list strings.
From Stdlib Require Import ZArith Lia.
From S2P Require Import Prelude Dom Traversal Menu MenuInv.

(** ** The reference navigation *)

Section Reference.
Context {A B : Type} `{EqDecision B} (key : A -> B).

(** The element following the one whose key is [cur]; [None] when there is
    none ([cur] absent or last). *)
Fixpoint succ_in (cur : option B) (l : list A) : option A :=
  match l with
  | [] => None
  | y :: l' => if decide (Some (key y) = cur) then head l' else succ_in cur l'
  end.

Definition cyc_next (cur : option B) (items : list A) : option A :=
  match succ_in cur items with Some y => Some y | None => head items end.

Definition cyc_prev (cur : option B) (items : list A) : option A :=
  match succ_in cur (reverse items) with Some y => Some y | None => last items end.

(** [indexOf] of the focused key, [-1] with no focused item. *)
Definition cur_index (cur : option B) (items : list A) : Z :=
  match cur with Some c => index_of c (map key items) | None => (-1)%Z end.
End Reference.

(** The key of the focused item, if focus is on one. *)
Definition focus_id (f : focus_target) : option nat :=
  match f with FocusItem id => Some id | _ => None end.

(** Moving focus to the element the navigation picked, if any. *)
Definition nav_focus (target : option elem) (s : menu) : menu :=
  match target with Some e => focus_elem e s | None => s end.

(** ** Lemmas on the reference *)

Section ReferenceLemmas.
Context {A B : Type} `{EqDecision B} (key : A -> B).
Implicit Types (l items : list A).

Lemma succ_in_lookup l i y :
  NoDup (map key l) -> l !! i = Some y -> succ_in key (Some (key y)) l = l !! S i.
Proof.
  revert i. induction l as [|z l IH]; intros i Hnd Hi; [done|].
  simpl in Hnd. apply NoDup_cons in Hnd as [Hz Hnd]. destruct i as [|i]; simpl in *.
  - injection Hi as ->. rewrite decide_True by done. by destruct l.
  - rewrite decide_False; [by apply IH|]. intros [= Hk]. apply Hz. rewrite Hk.
    apply list_elem_of_lookup_2 with i. by rewrite list_lookup_fmap, Hi.
Qed.

Lemma succ_in_absent cur l :
  (forall y, y ∈ l -> Some (key y) <> cur) -> succ_in key cur l = None.
Proof.
  induction l as [|z l IH]; intros Hl; simpl; [done|].
  rewrite decide_False by (apply Hl; left). apply IH. intros y Hy. apply Hl. by right.
Qed.

(** A key of the list is the key of one of its elements, at the same index. *)
Lemma key_lookup l c :
  c ∈ map key l -> exists i y, l !! i = Some y /\ key y = c.
Proof.
  intros Hc. apply list_elem_of_lookup_1 in Hc as [i Hi].
  rewrite list_lookup_fmap in Hi. destruct (l !! i) as [y|] eqn:Hy; [|done].
  injection Hi as <-. eauto.
Qed.

Lemma absent_key items c :
  c ∉ map key items -> forall y, y ∈ items -> Some (key y) <> Some c.
Proof. intros Hc y Hy [= <-]. apply Hc. by apply list_elem_of_fmap_2. Qed.

Lemma cur_index_absent cur items :
  (forall y, y ∈ items -> Some (key y) <> cur) -> cur_index key cur items = (-1)%Z.
Proof.
  intros Hl. destruct cur as [c|]; [|done]. simpl. apply index_of_not_in.
  intros Hc. apply key_lookup in Hc as (i & y & Hi & <-).
  eapply Hl; [eapply list_elem_of_lookup_2; eauto|done].
Qed.

(** The key of the element at [i] has index [i]. *)
Lemma cur_index_lookup items i y :
  NoDup (map key items) -> items !! i = Some y ->
  cur_index key (Some (key y)) items = Z.of_nat i.
Proof. intros Hnd Hi. apply index_of_lookup; [done|]. by rewrite list_lookup_fmap, Hi. Qed.

Lemma lookup_length_pred items i y :
  items !! i = Some y -> S i = length items \/ S i < length items.
Proof. intros Hi. apply lookup_lt_Some in Hi. lia. Qed.

(** ArrowDown from the element at [i]. *)
Lemma arrow_down_at items i y :
  items !! i = Some y ->
  arrow_target "ArrowDown" items (Z.of_nat i) =
  match items !! S i with Some z => Some z | None => head items end.
Proof.
  intros Hi. destruct (lookup_length_pred items i y Hi) as [Hl|Hl].
  - rewrite (lookup_ge_None_2 items (S i)) by lia.
    replace (Z.of_nat i) with (Z.of_nat (length items) - 1)%Z by lia.
    apply arrow_wraps. by intros ->.
  - destruct (arrow_neighbours items i Hl) as [-> _].
    by destruct (lookup_lt_is_Some_2 items (S i) Hl) as [z ->].
Qed.

(** ArrowDown from outside the items focuses the first one. *)
Lemma arrow_down_outside items :
  arrow_target "ArrowDown" items (-1) = head items.
Proof.
  unfold arrow_target; simpl. unfold down_index, js_rem. destruct items as [|x xs]; [done|].
  simpl. rewrite Z.rem_0_l by lia. apply (js_at_lookup (x :: xs) 0).
Qed.
End ReferenceLemmas.

(** ** Equivalence of the index arithmetic with the reference *)

Section Equivalence.
Context {A B : Type} `{EqDecision B} (key : A -> B).
Implicit Types (items : list A).

(** ArrowDown: [items[(idx + 1) % n]] is the reference successor, for any
    focus, on a list of distinct keys. *)
Lemma arrow_down_cyclic items cur :
  NoDup (map key items) ->
  arrow_target "ArrowDown" items (cur_index key cur items) = cyc_next key cur items.
Proof.
  intros Hnd. unfold cyc_next.
  destruct cur as [c|]; [destruct (decide (c ∈ map key items)) as [Hc|Hc]|].
  - apply key_lookup in Hc as (i & y & Hi & <-).
    rewrite (cur_index_lookup key items i y), (succ_in_lookup key items i y) by done.
    by apply arrow_down_at with y.
  - rewrite cur_index_absent, succ_in_absent by (by apply absent_key).
    apply arrow_down_outside.
  - rewrite cur_index_absent, succ_in_absent by done. apply arrow_down_outside.
Qed.

(** ArrowUp: [items[(idx - 1 + n) % n]] is the reference predecessor when
    focus is on an item. *)
Lemma arrow_up_cyclic items y :
  NoDup (map key items) -> y ∈ items ->
  arrow_target "ArrowUp" items (cur_index key (Some (key y)) items) = cyc_prev key (Some (key y)) items.
Proof.
  intros Hnd Hy. apply list_elem_of_lookup_1 in Hy as [i Hi].
  pose proof (lookup_lt_Some _ _ _ Hi) as Hlt.
  rewrite (cur_index_lookup key items i y) by done. unfold cyc_prev.
  assert (Hr : reverse items !! (length items - S i) = Some y).
  { rewrite reverse_lookup by lia. by replace (length items - S (length items - S i)) with i by lia. }
  rewrite (succ_in_lookup key (reverse items) (length items - S i) y); [|change (NoDup (key <$> reverse items)); rewrite fmap_reverse, reverse_Permutation; exact Hnd|done].
  destruct i as [|i].
  - rewrite (lookup_ge_None_2 (reverse items)) by (rewrite length_reverse; lia).
    apply arrow_wraps. by intros ->.
  - rewrite reverse_lookup by lia. replace (length items - S (S (length items - S (S i)))) with i by lia.
    destruct (arrow_neighbours items i Hlt) as [_ ->].
    by destruct (lookup_lt_is_Some_2 items i ltac:(lia)) as [z ->].
Qed.
End Equivalence.

Lemma active_index_cur f items : active_index f items = cur_index el_id (focus_id f) items.
Proof. by destruct f. Qed.

(** [keyHandler] on an arrow key, with the menu open, is the focus move its
    [arrow_target] picks. *)
Lemma keyHandler_arrow s key :
  open_class s = true -> (key === "ArrowDown") || (key === "ArrowUp") = true ->
  keyHandler key s =
  (if arrow_target key (query_all SelFocusable (panel s))
        (active_index (active s) (query_all SelFocusable (panel s))) is Some e
   then Some (focus_elem e s)
   else if Nat.eqb (length (query_all SelFocusable (panel s))) 0 then Some s else None).
Proof.
  intros Ho Hk. unfold keyHandler. rewrite Ho, Hk, andb_true_r.
  assert (Hesc : (key === "Escape") = false).
  { apply String.eqb_neq. intros ->. discriminate. }
  rewrite Hesc. destruct (query_all SelFocusable (panel s)) as [|x xs]; simpl; [|done].
  unfold arrow_target, js_at. by repeat case_match.
Qed.

(** ArrowDown, on an open menu whose items have distinct identities, is the
    reference successor, from any focus. *)
Lemma keyHandler_down_cyclic s :
  open_class s = true -> NoDup (map el_id (query_all SelFocusable (panel s))) ->
  keyHandler "ArrowDown" s =
    Some (nav_focus (cyc_next el_id (focus_id (active s)) (query_all SelFocusable (panel s))) s).
Proof.
  intros Ho Hnd. rewrite keyHandler_arrow by done. rewrite active_index_cur, arrow_down_cyclic by done.
  unfold cyc_next. destruct (query_all SelFocusable (panel s)); simpl; [done|]. by repeat case_match.
Qed.

(** C26: with the menu open and the items' identities distinct, ArrowDown
    moves focus to the reference successor of the focused item (the first
    item after the last, or from outside the items), and ArrowUp from an
    item to its reference predecessor (the last item before the first). *)
Theorem keyHandler_cyclic s :
  open_class s = true -> NoDup (map el_id (query_all SelFocusable (panel s))) ->
  keyHandler "ArrowDown" s =
    Some (nav_focus (cyc_next el_id (focus_id (active s)) (query_all SelFocusable (panel s))) s) /\
  (forall e, e ∈ query_all SelFocusable (panel s) -> active s = FocusItem (el_id e) ->
   keyHandler "ArrowUp" s =
    Some (nav_focus (cyc_prev el_id (Some (el_id e)) (query_all SelFocusable (panel s))) s)).
Proof.
  intros Ho Hnd. split; [by apply keyHandler_down_cyclic|intros e He Ha].
  rewrite keyHandler_arrow by done. rewrite active_index_cur, Ha. cbn [focus_id].
  rewrite (arrow_up_cyclic el_id _ e) by done.
  unfold cyc_prev. destruct (query_all SelFocusable (panel s)) as [|x xs]; [by apply not_elem_of_nil in He|].
  simpl. repeat case_match; simplify_eq; try done.
  match goal with H : last _ = None |- _ => by apply last_None in H end.
Qed.

(** ** Instances *)

Lemma keyHandler_cyclic_witness :
  keyHandler "ArrowDown" demo_open =
    Some (nav_focus (cyc_next el_id (focus_id (active demo_open))
                       (query_all SelFocusable (panel demo_open))) demo_open) /\
  (forall e, e ∈ query_all SelFocusable (panel demo_open) -> active demo_open = FocusItem (el_id e) ->
   keyHandler "ArrowUp" demo_open =
    Some (nav_focus (cyc_prev el_id (Some (el_id e)) (query_all SelFocusable (panel demo_open))) demo_open)).
Proof.
  apply keyHandler_cyclic; [reflexivity|]. apply (bool_decide_unpack _). vm_compute. reflexivity.
Defined.
