(* ===== verification/Loading.v ===== *)
(** * Loading: the lazy fetch of the menu fragment

    [loadMenuHtml] (header.js, lines 16-43) as it runs inside the click
    handler (lines 89-93): the request sent at most once the menu is
    loaded, the panel's content on each outcome (fragment, empty fragment,
    network error, HTTP error, unreadable body), the console report of a
    failure, and [menuLoaded] set on every outcome and never reset. *)

From stdpp Require Import base list strings sets.
From Stdlib Require Import ZArith Lia.
From S2P Require Import Prelude Dom Traversal Menu MenuInv.

(** The part of the state [openMenu] and [closeMenu] leave alone. *)
Definition content_of (s : menu) : list node * bool * bool * nat * list log_entry :=
  (panel s, links_bound s, menu_loaded s, requests s, console s).

(** Whether a fragment has the navigation structure [loadMenuHtml] looks
    for (line 33): a [ul] or an anchor. *)
Definition has_nav (frag : list node) : bool :=
  bool_decide (query SelUl frag <> None) || negb (Nat.eqb (length (query_all SelA frag)) 0).

Lemma content_of_openMenu s : content_of (openMenu s) = content_of s.
Proof. unfold openMenu, focus_first, focus_elem, focus_dropdown, add_event_listener.
  by repeat case_match. Qed.

Lemma content_of_closeMenu s : content_of (closeMenu s) = content_of s.
Proof. done. Qed.

Lemma query_annotate s ns : query s (annotate_links ns) = annotate_elem <$> query s ns.
Proof. unfold query. rewrite query_all_annotate. by destruct (query_all s ns). Qed.

(** [load_succeeded] on a fragment with or without navigation. *)
Lemma load_succeeded_nav frag s :
  has_nav frag = true ->
  content_of (load_succeeded frag s) =
    (annotate_links frag, true, true, requests s, console s).
Proof.
  unfold has_nav, load_succeeded, content_of. simpl. intros Hnav.
  rewrite query_annotate, query_all_annotate_length.
  destruct (query SelUl frag); simpl in *; [done|].
  destruct (length (query_all SelA frag)); simpl in *; [done|]. done.
Qed.

Lemma load_succeeded_no_nav frag s :
  has_nav frag = false ->
  content_of (load_succeeded frag s) = (no_nav_note, false, true, requests s, console s).
Proof.
  unfold has_nav, load_succeeded, content_of. simpl. intros Hnav.
  rewrite query_annotate, query_all_annotate_length.
  destruct (query SelUl frag); simpl in *; [done|].
  destruct (length (query_all SelA frag)); simpl in *; done.
Qed.

Lemma load_failed_content err s :
  content_of (load_failed err s) =
    (failed_note, false, true, requests s, console s ++ [MenuLoadFailed err]).
Proof. done. Qed.

(** Discharges the side conditions of [stable_reachable] for a predicate on
    a few fields. *)
Ltac stable_prims :=
  intros; simpl in *; destruct_and?; first [done | congruence | set_solver | naive_solver].

(** ** What a settlement shows *)

(** C8: a rejected [fetch] or a response whose status is not [ok] is caught:
    the panel shows the "Failed to load menu" note, the error is logged
    once, [menuLoaded] becomes [true], no further request is sent, and the
    menu opens (the click handler resumes with [openMenu]). *)
Theorem fetch_failure_shows_error r s :
  synced s ->
  match r with FetchRejected _ => True | FetchResponse st _ => response_ok st = false end ->
  exists err,
    content_of (fetch_settled r s) =
      (failed_note, false, true, requests s, console s ++ [MenuLoadFailed err]) /\
    ui (fetch_settled r s) = (Some "true", true, listeners_for true).
Proof.
  intros Hs Hr. destruct r as [why|st txt]; unfold fetch_settled; [|rewrite Hr];
    eexists; rewrite content_of_openMenu, load_failed_content; split; try done;
    apply ui_openMenu, synced_listeners; eauto with menu.
Qed.

(** C13: when [res.text()] settles, the panel shows the fragment with its
    links annotated and bound if it has a [ul] or an anchor, the
    "No navigation found." note if it has neither, and the failure note
    (with one console report) if the body could not be read; in every
    case [menuLoaded] is [true], no request is sent and the menu opens. *)
Theorem body_settled_content b s :
  synced s ->
  content_of (body_settled b s) =
    match b with
    | BodyRejected why =>
        (failed_note, false, true, requests s, console s ++ [MenuLoadFailed (BodyError why)])
    | BodyText frag =>
        if has_nav frag then (annotate_links frag, true, true, requests s, console s)
        else (no_nav_note, false, true, requests s, console s)
    end /\
  ui (body_settled b s) = (Some "true", true, listeners_for true).
Proof.
  intros Hs. destruct b as [why|frag]; unfold body_settled; rewrite content_of_openMenu;
    (split; [|apply ui_openMenu, synced_listeners; eauto with menu]).
  - by rewrite load_failed_content.
  - destruct (has_nav frag) eqn:E;
      [rewrite load_succeeded_nav|rewrite load_succeeded_no_nav]; done.
Qed.

(** ** Once loaded, always loaded: no second request *)

(** C14: [menuLoaded] is never reset: from a state where it is [true], every
    reachable state has it [true]. *)
Theorem loaded_stays s s' : menu_loaded s = true -> reachable s s' -> menu_loaded s' = true.
Proof. intros H. apply (stable_reachable (fun x => menu_loaded x = true)); stable_prims. Qed.

(** C4: once [menuLoaded] is [true] (after the first settlement, successful
    or not), no event ever sends another request. *)
Theorem no_request_after_load s s' :
  menu_loaded s = true -> reachable s s' -> requests s' = requests s.
Proof.
  intros H Hr.
  enough (menu_loaded s' = true /\ requests s' = requests s) by tauto.
  revert Hr. apply (stable_reachable (fun x => menu_loaded x = true /\ requests x = requests s));
    stable_prims.
Qed.

(** ** Instances *)

Lemma fetch_failure_shows_error_witness :
  exists err,
    content_of (fetch_settled (FetchResponse 404 "Not Found") demo_pending) =
      (failed_note, false, true, requests demo_pending,
       console demo_pending ++ [MenuLoadFailed err]) /\
    ui (fetch_settled (FetchResponse 404 "Not Found") demo_pending) =
      (Some "true", true, listeners_for true).
Proof. apply fetch_failure_shows_error; [synced_by_computation|reflexivity]. Defined.

Lemma body_settled_content_witness :
  content_of (body_settled (BodyText sample_menu) demo_reading) =
    (if has_nav sample_menu
     then (annotate_links sample_menu, true, true, requests demo_reading, console demo_reading)
     else (no_nav_note, false, true, requests demo_reading, console demo_reading)) /\
  ui (body_settled (BodyText sample_menu) demo_reading) = (Some "true", true, listeners_for true).
Proof. apply (body_settled_content (BodyText sample_menu)). synced_by_computation. Defined.

Lemma loaded_stays_witness : menu_loaded demo_closed = true.
Proof.
  apply (loaded_stays demo_open demo_closed); [vm_compute; reflexivity|].
  apply run_reachable with (evs := [UserClick OnBtn]). vm_compute. reflexivity.
Defined.

Lemma no_request_after_load_witness : requests demo_closed = requests demo_open.
Proof.
  apply (no_request_after_load demo_open demo_closed); [vm_compute; reflexivity|].
  apply run_reachable with (evs := [UserClick OnBtn]). vm_compute. reflexivity.
Defined.
