(* ===== verification/Panel.v ===== *)
(** * Panel: what the panel can show

    Only three code paths write [dropdown.innerHTML]: the loading note of
    the click handler (line 90), the fetched fragment and the "no
    navigation" note of the [try] block (lines 22 and 34), and the failure
    note of the [catch] block (line 40).  [step_panel] shows that after any
    event the panel holds its previous content, one of the three notes, or
    the fragment that event delivered, annotated.  Once the menu is loaded
    and no load is pending, no event changes the panel again
    ([loaded_panel_stable]). *)

From stdpp Require Import base list strings.
From Stdlib Require Import ZArith Lia.
From S2P Require Import Prelude Dom Traversal Menu MenuInv Loading.

(** The panel content an event can produce from [p]. *)
Definition panel_after (ev : event) (p p' : list node) : Prop :=
  p' = p \/ p' = loading_note \/ p' = failed_note \/ p' = no_nav_note \/
  exists frag, ev = BodySettles (BodyText frag) /\ p' = annotate_links frag.

(** ** Operations that keep the panel *)

Section Keep.
Context (s : menu).

Lemma panel_openMenu : panel (openMenu s) = panel s.
Proof. pose proof (content_of_openMenu s) as H. by injection H. Qed.
Lemma panel_focus_elem e : panel (focus_elem e s) = panel s.
Proof. unfold focus_elem. by case_match. Qed.
Lemma panel_outsideClickHandler t : panel (outsideClickHandler t s) = panel s.
Proof. unfold outsideClickHandler. by case_match. Qed.
Lemma panel_dropdownClickHandler t : panel (dropdownClickHandler t s) = panel s.
Proof. unfold dropdownClickHandler. by repeat case_match. Qed.
Lemma panel_keyHandler k s' : keyHandler k s = Some s' -> panel s' = panel s.
Proof. unfold keyHandler. intros. repeat case_match; simplify_eq; try done. apply panel_focus_elem. Qed.
End Keep.

Lemma panel_invoke_doc ev ls s : panel (invoke_doc ev ls s) = panel s.
Proof.
  revert s. induction ls as [|l ls IH]; intros s; simpl; [done|]. rewrite IH.
  case_match; [|done]. destruct l as [ty []], ev as [t|k]; simpl; try done.
  - apply panel_outsideClickHandler.
  - case_match eqn:E; [by apply panel_keyHandler in E|done].
Qed.

Lemma panel_document_phase ev s : panel (document_phase ev s) = panel s.
Proof. apply panel_invoke_doc. Qed.

#[export] Hint Rewrite panel_openMenu panel_focus_elem panel_outsideClickHandler
  panel_dropdownClickHandler panel_document_phase : js_rw.

(** ** The panel after one event *)

Lemma panel_btnClickHandler s :
  panel (btnClickHandler s) = panel s \/ panel (btnClickHandler s) = loading_note.
Proof. unfold btnClickHandler. repeat case_match; [left..|right]; by autorewrite with js_rw. Qed.

Lemma panel_dispatch_click t s :
  panel (dispatch_click t s) = panel s \/ panel (dispatch_click t s) = loading_note.
Proof.
  unfold dispatch_click. autorewrite with js_rw.
  destruct t; autorewrite with js_rw; auto using panel_btnClickHandler.
Qed.

Lemma panel_keydown_target_phase k s :
  panel (keydown_target_phase k s) = panel s \/ panel (keydown_target_phase k s) = loading_note.
Proof.
  unfold keydown_target_phase. repeat case_match; auto.
  - unfold btnKeydownHandler in *. repeat case_match; simplify_eq; autorewrite with js_rw;
      auto using panel_dispatch_click.
  - left. apply (fold_left_preserves (fun x => panel x = panel s)); [|done]. intros x <-. unfold linkKeydownHandler. by case_match.
Qed.

(** A click keeps "the panel is [p] or the loading note". *)
Lemma panel_dispatch_click_or t s p :
  panel s = p \/ panel s = loading_note ->
  panel (dispatch_click t s) = p \/ panel (dispatch_click t s) = loading_note.
Proof. intros Hp. destruct (panel_dispatch_click t s) as [E|E]; rewrite E; [exact Hp|by right]. Qed.

Lemma panel_press_key k s :
  panel (press_key k s) = panel s \/ panel (press_key k s) = loading_note.
Proof.
  unfold press_key, keydown_default. pose proof (panel_keydown_target_phase k s) as H.
  rewrite <- (panel_document_phase (KeydownEvent k)) in H.
  repeat case_match; auto using panel_dispatch_click_or.
Qed.

Lemma panel_fetch_settled r s :
  panel (fetch_settled r s) = panel s \/ panel (fetch_settled r s) = failed_note.
Proof. unfold fetch_settled. repeat case_match; [right|left|right]; by autorewrite with js_rw. Qed.

Lemma panel_body_settled b s :
  panel (body_settled b s) = failed_note \/ panel (body_settled b s) = no_nav_note \/
  exists frag, b = BodyText frag /\ panel (body_settled b s) = annotate_links frag.
Proof.
  unfold body_settled. destruct b as [why|frag]; rewrite panel_openMenu; [by left|].
  unfold load_succeeded. simpl. case_match; [by right; left|]. right; right. by exists frag.
Qed.

(** C29: after any event the panel holds its previous content, the loading
    note, the failure note, the "No navigation found." note, or the
    fragment that event delivered with its links annotated: no other code
    path writes [dropdown.innerHTML]. *)
Theorem step_panel ev s s' : step ev s = Some s' -> panel_after ev (panel s) (panel s').
Proof.
  unfold panel_after. destruct ev; simpl; intros Hs; repeat case_match; simplify_eq.
  - destruct (panel_dispatch_click t s); tauto.
  - destruct (panel_press_key key s); tauto.
  - destruct (panel_fetch_settled r s); tauto.
  - destruct (panel_body_settled b s) as [|[|(frag & -> & ?)]]; eauto 10.
  - by left.
  - by left.
Qed.

(** ** After the load *)

(** What the load paths write: the panel, the links' listeners, the flag,
    the suspended calls and the requests. *)
Definition pview (s : menu) : list node * bool * bool * nat * nat * nat :=
  (panel s, links_bound s, menu_loaded s, awaiting_fetch s, awaiting_body s, requests s).

Create Rewrite HintDb pview_rw.

Section PView.
Context (s : menu).

Lemma pview_openMenu : pview (openMenu s) = pview s.
Proof. unfold openMenu, focus_first, focus_elem, focus_dropdown, add_event_listener. by repeat case_match. Qed.
Lemma pview_closeMenu : pview (closeMenu s) = pview s.
Proof. done. Qed.
Lemma pview_focus_elem e : pview (focus_elem e s) = pview s.
Proof. unfold focus_elem. by case_match. Qed.
Lemma pview_outsideClickHandler t : pview (outsideClickHandler t s) = pview s.
Proof. unfold outsideClickHandler. by case_match. Qed.
Lemma pview_dropdownClickHandler t : pview (dropdownClickHandler t s) = pview s.
Proof. unfold dropdownClickHandler. by repeat case_match. Qed.
Lemma pview_linkKeydownHandler k : pview (linkKeydownHandler k s) = pview s.
Proof. unfold linkKeydownHandler. by case_match. Qed.
Lemma pview_keyHandler k s' : keyHandler k s = Some s' -> pview s' = pview s.
Proof. unfold keyHandler. intros. repeat case_match; simplify_eq; try done. apply pview_focus_elem. Qed.
End PView.

#[export] Hint Rewrite pview_openMenu pview_closeMenu pview_focus_elem pview_outsideClickHandler
  pview_dropdownClickHandler pview_linkKeydownHandler : pview_rw.

Lemma pview_document_phase ev s : pview (document_phase ev s) = pview s.
Proof.
  unfold document_phase. generalize (doc_listeners s). intros ls. revert s.
  induction ls as [|l ls IH]; intros s; simpl; [done|]. rewrite IH.
  case_match; [|done]. destruct l as [ty []], ev as [t|k]; simpl; autorewrite with pview_rw; try done.
  case_match eqn:E; [by apply pview_keyHandler in E|done].
Qed.
#[export] Hint Rewrite pview_document_phase : pview_rw.

(** With [menuLoaded] set, the trigger only opens and closes. *)
Lemma pview_btnClickHandler_loaded s : menu_loaded s = true -> pview (btnClickHandler s) = pview s.
Proof. intros Hl. unfold btnClickHandler. rewrite Hl. case_match; by autorewrite with pview_rw. Qed.

Lemma loaded_pview s s' : pview s' = pview s -> menu_loaded s' = menu_loaded s.
Proof. unfold pview. by intros [= _ _ -> _ _ _]. Qed.

Lemma pview_dispatch_click_loaded t s : menu_loaded s = true -> pview (dispatch_click t s) = pview s.
Proof.
  intros Hl. unfold dispatch_click. autorewrite with pview_rw.
  destruct t; autorewrite with pview_rw; auto using pview_btnClickHandler_loaded.
Qed.

Lemma pview_keydown_target_phase_loaded k s :
  menu_loaded s = true -> pview (keydown_target_phase k s) = pview s.
Proof.
  intros Hl. unfold keydown_target_phase, btnKeydownHandler. repeat case_match; try done;
    rewrite ?pview_focus_elem; auto using pview_dispatch_click_loaded.
  apply (fold_left_preserves (fun x => pview x = pview s)); [|done].
  intros x <-. apply pview_linkKeydownHandler.
Qed.

Lemma pview_press_key_loaded k s : menu_loaded s = true -> pview (press_key k s) = pview s.
Proof.
  intros Hl. unfold press_key, keydown_default.
  pose proof (pview_keydown_target_phase_loaded k s Hl) as H1.
  rewrite <- (pview_document_phase (KeydownEvent k)) in H1.
  pose proof (loaded_pview _ _ H1) as Hl1. rewrite Hl in Hl1.
  repeat case_match; rewrite ?pview_dispatch_click_loaded; done.
Qed.

(** A loaded widget with no suspended call keeps [pview] on every step. *)
Lemma pview_step_loaded ev s s' :
  menu_loaded s = true -> awaiting_fetch s = 0 -> awaiting_body s = 0 ->
  step ev s = Some s' -> pview s' = pview s.
Proof.
  intros Hl Hf Hb Hst. destruct ev; simpl in Hst; rewrite ?Hf, ?Hb in Hst;
    repeat case_match; simplify_eq; auto using pview_dispatch_click_loaded, pview_press_key_loaded.
Qed.

(** C33: once [menuLoaded] is set and no [loadMenuHtml] call is suspended,
    the panel's content (and whether its links are bound) never changes
    again, whatever the user does: the fragment is fetched and rendered
    once. *)
Theorem loaded_panel_stable s s' :
  menu_loaded s = true -> awaiting_fetch s = 0 -> awaiting_body s = 0 ->
  reachable s s' -> panel s' = panel s /\ links_bound s' = links_bound s.
Proof.
  intros Hl Hf Hb Hr.
  enough (pview s' = pview s) as Hv by (unfold pview in Hv; by injection Hv).
  induction Hr as [|ev x y Hr IH Hst]; [done|].
  assert (Hx : menu_loaded x = true /\ awaiting_fetch x = 0 /\ awaiting_body x = 0)
    by (unfold pview in IH; injection IH as _ _ -> -> ->; done).
  destruct Hx as (? & ? & ?). rewrite <- IH. by eapply pview_step_loaded.
Qed.

(** ** Instances *)

Lemma step_panel_witness :
  panel_after (BodySettles (BodyText sample_menu)) (panel demo_reading)
    (panel (default demo_reading (step (BodySettles (BodyText sample_menu)) demo_reading))).
Proof. apply step_panel. vm_compute. reflexivity. Defined.

Lemma loaded_panel_stable_witness :
  panel demo_closed = panel demo_open /\ links_bound demo_closed = links_bound demo_open.
Proof.
  apply loaded_panel_stable; [vm_compute; reflexivity..|].
  apply run_reachable with (evs := [UserClick OnBtn]). vm_compute. reflexivity.
Defined.
