(* ===== verification/Settle.v ===== *)
(** * Settle: the pending loads always finish

    A [loadMenuHtml] call suspends at most twice, on [fetch] and on
    [res.text()] (lines 19 and 21), and each settlement resumes it by one
    of these two points.  The weight [2 * awaiting_fetch + awaiting_body]
    counts the settlements still to come; every settlement step lowers it,
    so no sequence of settlements without user input is longer than it
    ([settlements_bounded]), and the settlement relation is strongly
    normalising.  [drain] is the event loop delivering settlements while a
    call is suspended, with fuel; with fuel at least the weight every call
    has returned, the menu is loaded and open ([drain_completes]), and the
    result does not depend on the fuel beyond that. *)

From stdpp Require Import base list strings relations.
From Stdlib Require Import ZArith Lia.
From S2P Require Import Prelude Dom Menu MenuInv.

(** ** The settlements and their weight *)

Definition settlement (ev : event) : bool :=
  match ev with FetchSettles _ | BodySettles _ => true | _ => false end.

(** The settlements still to come: two for a call suspended on [fetch],
    one for a call suspended on [res.text()]. *)
Definition weight (s : menu) : nat := 2 * awaiting_fetch s + awaiting_body s.

(** One settlement step of the event loop. *)
Definition settle_rel (s s' : menu) : Prop :=
  exists ev, settlement ev = true /\ step ev s = Some s'.

(** The event loop without user input, with the network answering every
    request with [r] and every body read with [b] (the same [menu.html]):
    a suspended [res.text()] resumes first, then a suspended [fetch]. *)
Fixpoint drain (fuel : nat) (r : fetch_result) (b : body_result) (s : menu) : menu :=
  match fuel with
  | O => s
  | S fuel' =>
      match awaiting_body s, awaiting_fetch s with
      | S _, _ => drain fuel' r b (body_settled b s)
      | O, S _ => drain fuel' r b (fetch_settled r s)
      | O, O => s
      end
  end.

(** The settlement events [drain] delivers. *)
Fixpoint drain_events (fuel : nat) (r : fetch_result) (b : body_result) (s : menu) : list event :=
  match fuel with
  | O => []
  | S fuel' =>
      match awaiting_body s, awaiting_fetch s with
      | S _, _ => BodySettles b :: drain_events fuel' r b (body_settled b s)
      | O, S _ => FetchSettles r :: drain_events fuel' r b (fetch_settled r s)
      | O, O => []
      end
  end.

(** ** Frame: what [openMenu] and the two outcomes leave alone *)

(** The fields the settlements read. *)
Definition loads (s : menu) : nat * nat * bool := (awaiting_fetch s, awaiting_body s, menu_loaded s).

Create Rewrite HintDb loads_rw.

Section Frame.
Context (s : menu).

Lemma loads_openMenu : loads (openMenu s) = loads s.
Proof. unfold openMenu, focus_first, focus_elem, focus_dropdown, add_event_listener. by repeat case_match. Qed.
Lemma loads_load_failed e : loads (load_failed e s) = (awaiting_fetch s, awaiting_body s, true).
Proof. done. Qed.
Lemma loads_load_succeeded frag : loads (load_succeeded frag s) = (awaiting_fetch s, awaiting_body s, true).
Proof. unfold load_succeeded. by case_match. Qed.
Lemma open_class_openMenu : open_class (openMenu s) = true.
Proof. unfold openMenu, focus_first, focus_elem, focus_dropdown, add_event_listener. by repeat case_match. Qed.
End Frame.

#[export] Hint Rewrite loads_openMenu loads_load_failed loads_load_succeeded : loads_rw.

Lemma loads_eq (s : menu) af ab l :
  loads s = (af, ab, l) -> awaiting_fetch s = af /\ awaiting_body s = ab /\ menu_loaded s = l.
Proof. unfold loads. by intros [= -> -> ->]. Qed.

(** The two settlements, on their [loads]. *)
Lemma loads_fetch_settled r s :
  loads (fetch_settled r s) =
  match r with
  | FetchResponse st _ =>
      if response_ok st then (pred (awaiting_fetch s), S (awaiting_body s), menu_loaded s)
      else (pred (awaiting_fetch s), awaiting_body s, true)
  | FetchRejected _ => (pred (awaiting_fetch s), awaiting_body s, true)
  end.
Proof. unfold fetch_settled. destruct r as [|st ?]; [|destruct (response_ok st)]; by autorewrite with loads_rw. Qed.

Lemma loads_body_settled b s :
  loads (body_settled b s) = (awaiting_fetch s, pred (awaiting_body s), true).
Proof. unfold body_settled. destruct b; by autorewrite with loads_rw. Qed.

(** The settlements that finish a call run [openMenu] (line 93). *)
Lemma open_fetch_settled r s :
  match r with FetchResponse st _ => response_ok st = false | FetchRejected _ => True end ->
  open_class (fetch_settled r s) = true.
Proof. unfold fetch_settled. destruct r as [|st ?]; [intros _|intros ->]; apply open_class_openMenu. Qed.

Lemma open_body_settled b s : open_class (body_settled b s) = true.
Proof. unfold body_settled. destruct b; apply open_class_openMenu. Qed.

(** ** Every settlement lowers the weight *)

Lemma weight_loads s s' : loads s = loads s' -> weight s = weight s'.
Proof. unfold loads, weight. by intros [= -> -> _]. Qed.

Lemma settle_weight ev s s' :
  settlement ev = true -> step ev s = Some s' -> weight s' < weight s.
Proof.
  unfold weight. destruct ev as [|k|r|b| |]; simpl; try done; intros _ Hst.
  - destruct (awaiting_fetch s) as [|nf] eqn:Hf; [done|]. injection Hst as <-.
    pose proof (loads_fetch_settled r s) as Hl.
    destruct r as [|st ?]; [|destruct (response_ok st)];
      apply loads_eq in Hl as (-> & -> & _); rewrite Hf; simpl; lia.
  - destruct (awaiting_body s) as [|nb] eqn:Hb; [done|]. injection Hst as <-.
    destruct (loads_eq _ _ _ _ (loads_body_settled b s)) as (-> & -> & _). rewrite Hb. simpl. lia.
Qed.

(** ** The loop *)

Lemma drain_zero_weight fuel r b s : weight s = 0 -> drain fuel r b s = s.
Proof. unfold weight. intros Hw. destruct fuel; simpl; [done|]. by destruct (awaiting_body s), (awaiting_fetch s); [|lia..]. Qed.

(** The step [drain] takes is a settlement step of the widget. *)
Lemma drain_step fuel r b s :
  weight s <> 0 ->
  exists ev s', settlement ev = true /\ step ev s = Some s' /\
    drain (S fuel) r b s = drain fuel r b s' /\
    drain_events (S fuel) r b s = ev :: drain_events fuel r b s' /\
    ((open_class s' = true /\ menu_loaded s' = true) \/ awaiting_body s' <> 0).
Proof.
  unfold weight. intros Hw. simpl.
  destruct (awaiting_body s) as [|nb] eqn:Hb; [destruct (awaiting_fetch s) as [|nf] eqn:Hf; [lia|]|].
  - exists (FetchSettles r), (fetch_settled r s). simpl. rewrite Hf. do 4 (split; [done|]).
    pose proof (loads_fetch_settled r s) as Hl. pose proof (open_fetch_settled r s) as Ho.
    destruct r as [|st ?]; [|destruct (response_ok st) eqn:Hok];
      apply loads_eq in Hl as (_ & -> & ->); [left|right|left]; auto.
  - exists (BodySettles b), (body_settled b s). simpl. rewrite Hb.
    do 4 (split; [done|]). left. split; [apply open_body_settled|].
    by destruct (loads_eq _ _ _ _ (loads_body_settled b s)) as (_ & _ & ->).
Qed.

Lemma drain_events_zero_weight fuel r b s : weight s = 0 -> drain_events fuel r b s = [].
Proof. unfold weight. intros Hw. destruct fuel; simpl; [done|]. by destruct (awaiting_body s), (awaiting_fetch s); [|lia..]. Qed.

(** Beyond the weight, more fuel changes nothing. *)
Lemma drain_fuel_irrelevant f1 f2 r b s :
  weight s <= f1 <= f2 -> drain f1 r b s = drain f2 r b s.
Proof.
  revert f2 s. induction f1 as [|f1 IH]; intros f2 s Hle.
  - rewrite !drain_zero_weight by lia. done.
  - destruct (decide (weight s = 0)) as [Hw|Hw]; [by rewrite !drain_zero_weight|].
    destruct f2 as [|f2]; [lia|]. simpl.
    destruct (awaiting_body s) as [|nb] eqn:Hb; [destruct (awaiting_fetch s) as [|nf] eqn:Hf|];
      [done|pose proof (settle_weight (FetchSettles r) s (fetch_settled r s))
           |pose proof (settle_weight (BodySettles b) s (body_settled b s))];
      simpl in *; rewrite ?Hf, ?Hb in *; apply IH; naive_solver lia.
Qed.

(** C27: without user input, the settlements of the pending loads form a
    finite sequence: any sequence of settlement events the widget accepts
    has at most [2 * awaiting_fetch + awaiting_body] events. *)
Theorem settlements_bounded evs s s' :
  forallb settlement evs = true -> run evs s = Some s' -> length evs <= weight s.
Proof.
  revert s. induction evs as [|ev evs IH]; intros s Hall Hrun; simpl; [lia|].
  apply andb_prop in Hall as [Hev Hall]. simpl in Hrun.
  destruct (step ev s) as [s1|] eqn:Hst; [|done]. simpl in Hrun.
  pose proof (settle_weight ev s s1 Hev Hst). specialize (IH s1 Hall Hrun). lia.
Qed.

(** The settlement relation has no infinite chain. *)
Lemma settle_sn s : sn settle_rel s.
Proof.
  induction s as [s IH] using (well_founded_induction (Wf_nat.well_founded_ltof _ weight)).
  constructor. intros s' (ev & Hev & Hst). apply IH. by eapply settle_weight.
Qed.

(** What the loop delivers, with fuel at least the weight. *)
Lemma drain_spec fuel r b s :
  weight s <= fuel ->
  run (drain_events fuel r b s) s = Some (drain fuel r b s) /\
  forallb settlement (drain_events fuel r b s) = true /\
  weight (drain fuel r b s) = 0 /\
  (weight s <> 0 -> menu_loaded (drain fuel r b s) = true /\ open_class (drain fuel r b s) = true).
Proof.
  revert s. induction fuel as [|fuel IH]; intros s Hf.
  - rewrite drain_zero_weight, drain_events_zero_weight by lia. split_and!; done || lia.
  - destruct (decide (weight s = 0)) as [Hw|Hw].
    { rewrite drain_zero_weight, drain_events_zero_weight by done. split_and!; done. }
    destruct (drain_step fuel r b s Hw) as (ev & s' & Hev & Hst & -> & -> & Hend).
    pose proof (settle_weight ev s s' Hev Hst) as Hlt.
    destruct (IH s' ltac:(lia)) as (Hrun & Hall & Hw' & Hdone).
    split_and!; [by simpl; rewrite Hst|by simpl; rewrite Hev|done|intros _].
    destruct (decide (weight s' = 0)) as [Hz|Hz]; [|by apply Hdone].
    rewrite drain_zero_weight by done. unfold weight in Hz.
    destruct Hend as [[Ho Hl]|Hb]; [done|lia].
Qed.

(** Settlements never issue a request: [fetch] is called only from the
    trigger's click listener. *)
Lemma requests_settlement ev s s' :
  settlement ev = true -> step ev s = Some s' -> requests s' = requests s.
Proof.
  destruct ev as [|k|r|b| |]; simpl; try done; intros _; case_match; intros; simplify_eq;
    [unfold fetch_settled|unfold body_settled]; unfold load_failed, load_succeeded, openMenu, focus_first,
    focus_elem, focus_dropdown, add_event_listener, bind_links; repeat case_match; done.
Qed.

Lemma requests_settlements evs s s' :
  forallb settlement evs = true -> run evs s = Some s' -> requests s' = requests s.
Proof.
  revert s. induction evs as [|ev evs IH]; intros s Hall Hrun; simpl in *; [by simplify_eq|].
  apply andb_prop in Hall as [Hev Hall]. destruct (step ev s) as [s1|] eqn:Hst; [|done].
  simpl in Hrun. rewrite (IH s1 Hall Hrun). by eapply requests_settlement.
Qed.

(** C28: with fuel at least the weight, the event loop delivers a sequence
    of settlements the widget accepts after which no [loadMenuHtml] call
    is suspended; if one was, the menu ends loaded and open. *)
Theorem drain_completes fuel r b s :
  weight s <= fuel ->
  run (drain_events fuel r b s) s = Some (drain fuel r b s) /\
  forallb settlement (drain_events fuel r b s) = true /\
  weight (drain fuel r b s) = 0 /\
  (weight s <> 0 -> menu_loaded (drain fuel r b s) = true /\ open_class (drain fuel r b s) = true).
Proof. apply drain_spec. Qed.

(** ** Instances *)

Lemma settlements_bounded_witness : length demo_ok <= weight demo_pending.
Proof. apply (settlements_bounded demo_ok demo_pending demo_open); vm_compute; reflexivity. Defined.

Lemma drain_completes_witness :
  let r := FetchResponse 200 "OK" in let b := BodyText sample_menu in
  run (drain_events 2 r b demo_pending) demo_pending = Some (drain 2 r b demo_pending) /\
  forallb settlement (drain_events 2 r b demo_pending) = true /\
  weight (drain 2 r b demo_pending) = 0 /\
  (weight demo_pending <> 0 ->
   menu_loaded (drain 2 r b demo_pending) = true /\ open_class (drain 2 r b demo_pending) = true).
Proof. apply drain_completes. vm_compute. lia. Defined.
