(* ===== verification/Interaction.v ===== *)
(** * Interaction: what the user's clicks and keys do to an open or closed menu

    Functional theorems on one user event ([dispatch_click], and
    [press_key], the dispatch of a key with its default action) from a
    [synced] state: the
    trigger toggles the menu, Escape, an outside click and a link click
    close it and return focus to the trigger, the arrow keys move focus
    cyclically, and two behaviours the spec does not describe: ArrowDown
    on the trigger lands on the second item, and a second click during the
    first load sends a second request; Enter on a focused link closes the
    menu through the click it causes, and Enter on the trigger of an open
    menu does not close it. *)

From stdpp Require Import base list strings sets.
From Stdlib Require Import ZArith Lia.
From S2P Require Import Prelude Dom Traversal Menu MenuInv Loading Settle.

(** A closed menu with focus back on the trigger. *)
Definition closed_at_btn (s : menu) : Prop :=
  ui s = (Some "false", false, []) /\ active s = FocusBtn.

(** The annotated links of [sample_menu] once loaded, and the open menu
    with focus moved off its items. *)
Definition demo_home : elem := mkElem 3 "a" [("href", "index.html"); ("role", "menuitem")].
Definition demo_docs : elem := mkElem 5 "a" [("href", "docs.html"); ("role", "menuitem")].
Definition demo_about : elem := mkElem 7 "a" [("href", "about.html"); ("role", "menuitem")].

(** The open menu after the user tabbed back to the trigger. *)
Definition demo_open_btn : menu :=
  default demo_start (run (UserClick OnBtn :: demo_ok ++ [UserFocus FocusBtn]) demo_start).

Definition demo_focus_out : menu :=
  default demo_start (run (UserClick OnBtn :: demo_ok ++ [UserFocus FocusElsewhere]) demo_start).

(** After two quick clicks and the first load: open, the second call still
    suspended on [fetch]. *)
Definition demo_double : menu :=
  default demo_start (run (UserClick OnBtn :: UserClick OnBtn :: demo_ok) demo_start).

(** ** [document]'s listeners on an open and a closed menu *)

Lemma document_phase_closed ev s : doc_listeners s = [] -> document_phase ev s = s.
Proof. intros H. unfold document_phase. by rewrite H. Qed.

Lemma document_phase_open_key k s :
  doc_listeners s = listeners_for true ->
  document_phase (KeydownEvent k) s = default s (keyHandler k s).
Proof.
  intros H. unfold document_phase. rewrite H. simpl. rewrite H.
  rewrite bool_decide_true by (simpl; set_solver).
  by destruct (keyHandler_is_Some k s) as [? ->].
Qed.

Lemma document_phase_open_click t s :
  doc_listeners s = listeners_for true ->
  document_phase (ClickEvent t) s = outsideClickHandler t s.
Proof.
  intros H. unfold document_phase. rewrite H. simpl. rewrite H.
  rewrite bool_decide_true by (simpl; set_solver). done.
Qed.

(** ** Key presses and their default action *)

(** The two keys with an activation behaviour. *)
Lemma activation_key_cases k : (k === "Enter") || (k === " ") = true -> k = "Enter" \/ k = " ".
Proof. intros [H|H]%orb_prop; [left|right]; by apply String.eqb_eq. Qed.

(** No other key activates an element of the panel. *)
Lemma activates_other k e : (k === "Enter") || (k === " ") = false -> activates k e = false.
Proof. unfold activates. intros [-> ->]%orb_false_iff. done. Qed.

(** No listener of the widget on [document] reacts to Enter or Space. *)
Lemma document_phase_activation k s :
  (k === "Enter") || (k === " ") = true -> document_phase (KeydownEvent k) s = s.
Proof.
  intros Hk. unfold document_phase. generalize (doc_listeners s). intros ls. revert s.
  induction ls as [|[ty []] ls IH]; intros s; simpl; [done| |]; case_match; try apply IH.
  destruct (activation_key_cases k Hk) as [-> | ->]; apply IH.
Qed.

(** A key with no activation behaviour has no default action the widget
    sees. *)
Lemma press_key_no_default k s :
  (k === "Enter") || (k === " ") = false -> press_key k s = dispatch_keydown k s.
Proof.
  intros Hk. unfold press_key, keydown_default, dispatch_keydown.
  rewrite Hk. repeat case_match; try done. by rewrite activates_other in * by done.
Qed.

(** The trigger's listener cancels its three keys (line 99). *)
Lemma press_key_btn_key k s :
  active s = FocusBtn -> (k === "ArrowDown") || (k === "Enter") || (k === " ") = true ->
  press_key k s = dispatch_keydown k s.
Proof. intros Ha Hk. unfold press_key, keydown_prevented. by rewrite Ha, Hk. Qed.

(** Away from the trigger, only Escape has a listener at the target. *)
Lemma keydown_target_phase_other k s :
  active s <> FocusBtn -> k <> "Escape" -> keydown_target_phase k s = s.
Proof.
  intros Ha Hk. unfold keydown_target_phase. destruct (active s); try done. case_match; [|done].
  apply (fold_left_preserves (fun x => x = s)); [|done].
  intros ? ->. unfold linkKeydownHandler. by rewrite (proj2 (String.eqb_neq k "Escape") Hk).
Qed.

(** Enter or Space anywhere else: the target phase and [document] do
    nothing, and the default action clicks an item the key activates. *)
Lemma press_key_activation_other k s :
  (k === "Enter") || (k === " ") = true -> active s <> FocusBtn ->
  press_key k s = keydown_default k (active s) s.
Proof.
  intros Hk Ha. assert (Ht : keydown_target_phase k s = s).
  { apply keydown_target_phase_other; [done|]. by destruct (activation_key_cases k Hk) as [-> | ->]. }
  unfold press_key, keydown_prevented. rewrite Ht, document_phase_activation, bool_decide_false by done.
  unfold keyHandler_prevents. simpl.
  by destruct (activation_key_cases k Hk) as [-> | ->]; rewrite andb_false_r.
Qed.

Lemma synced_open_listeners s : synced s -> open_class s = true -> doc_listeners s = listeners_for true.
Proof. intros [_ ->] ->. done. Qed.

Lemma synced_closed_listeners s : synced s -> open_class s = false -> doc_listeners s = [].
Proof. intros [_ ->] ->. done. Qed.

Lemma synced_closed_expanded s : synced s -> open_class s = false -> aria_expanded s <> Some "true".
Proof. intros [Hx _] Ho He. rewrite He, Ho in Hx. by rewrite bool_decide_true in Hx. Qed.

Lemma synced_open_expanded s : synced s -> open_class s = true -> aria_expanded s = Some "true".
Proof. intros [Hx _] Ho. rewrite Ho in Hx. by apply bool_decide_eq_true in Hx. Qed.

Lemma closeMenu_closed_at_btn s :
  doc_listeners s = [] \/ doc_listeners s = listeners_for true -> closed_at_btn (closeMenu s).
Proof. intros H. split; [by apply ui_closeMenu|done]. Qed.

#[export] Hint Resolve closeMenu_closed_at_btn synced_listeners : menu.

(** Closing again a menu closed at the trigger keeps it so. *)
Lemma closed_at_btn_closeMenu s : closed_at_btn s -> closed_at_btn (closeMenu s).
Proof. intros [Hui _]. apply closeMenu_closed_at_btn. left. by injection Hui. Qed.

Lemma closed_at_btn_document_phase ev s : closed_at_btn s -> document_phase ev s = s.
Proof. intros [Hui _]. apply document_phase_closed. by injection Hui. Qed.

(** A click on the trigger of an open menu is [closeMenu] alone: the
    [document] listeners it removes are skipped. *)
Lemma dispatch_btn_open s : synced s -> open_class s = true -> dispatch_click OnBtn s = closeMenu s.
Proof.
  intros Hs Ho. unfold dispatch_click, btnClickHandler.
  rewrite bool_decide_true by eauto using synced_open_expanded.
  apply closed_at_btn_document_phase. eauto with menu.
Qed.

(** The links' Escape listeners on the focused element's path close the
    menu or, when there is none, leave the state alone. *)
Lemma link_escapes s (l : list elem) :
  synced s ->
  let s' := fold_left (fun x _ => linkKeydownHandler "Escape" x) l s in
  s' = s \/ closed_at_btn s'.
Proof.
  intros Hs. apply (fold_left_preserves (fun x => x = s \/ closed_at_btn x)); [|by left].
  intros x [->|Hx]; right; unfold linkKeydownHandler; simpl.
  - eauto with menu.
  - by apply closed_at_btn_closeMenu.
Qed.

Lemma openMenu_facts s :
  synced s ->
  panel (openMenu s) = panel s /\ open_class (openMenu s) = true /\
  doc_listeners (openMenu s) = listeners_for true.
Proof.
  intros Hs. pose proof (content_of_openMenu s) as Hc.
  pose proof (ui_openMenu s (synced_listeners s Hs)) as Hu.
  unfold content_of, ui in *. injection Hc as Hp _. injection Hu as _ Ho Hl. done.
Qed.

Lemma active_openMenu s e :
  query SelFocusable (panel s) = Some e -> el_focusable e = true ->
  active (openMenu s) = FocusItem (el_id e).
Proof.
  intros Hq Hf. unfold openMenu, focus_first, add_event_listener; simpl. rewrite Hq.
  unfold focus_elem. rewrite Hf. by repeat case_match.
Qed.

(** The trigger's click on a closed, loaded menu is [openMenu]. *)
Lemma dispatch_click_btn_loaded s :
  synced s -> open_class s = false -> menu_loaded s = true -> dispatch_click OnBtn s = openMenu s.
Proof.
  intros Hs Ho Hl. unfold dispatch_click, btnClickHandler.
  rewrite bool_decide_false by eauto using synced_closed_expanded. rewrite Hl.
  destruct (openMenu_facts s Hs) as (_ & _ & Hd).
  by rewrite document_phase_open_click.
Qed.

(** ** Closing *)

(** C6: Escape closes an open menu wherever focus is (trigger, a link of the
    panel, the panel, the rest of the page): [aria-expanded] becomes
    ["false"], the [open] class and both [document] listeners go, and focus
    returns to the trigger. *)
Theorem escape_closes s :
  synced s -> open_class s = true -> closed_at_btn (press_key "Escape" s).
Proof.
  intros Hs Ho. rewrite press_key_no_default by done. pose proof (synced_open_listeners s Hs Ho) as Hl.
  assert (Hc : document_phase (KeydownEvent "Escape") s = closeMenu s)
    by (by rewrite document_phase_open_key).
  unfold dispatch_keydown, keydown_target_phase. destruct (active s) eqn:Ha.
  - change (btnKeydownHandler "Escape" s) with s. rewrite Hc; eauto with menu.
  - rewrite Hc; eauto with menu.
  - destruct (links_bound s); [|rewrite Hc; eauto with menu].
    destruct (link_escapes s (anchors_on_path (panel s) id) Hs) as [-> | Hcl].
    + rewrite Hc; eauto with menu.
    + by rewrite closed_at_btn_document_phase.
  - rewrite Hc; eauto with menu.
Qed.

(** C7: a click outside both the trigger and the panel closes an open menu
    and returns focus to the trigger. *)
Theorem outside_click_closes s :
  synced s -> open_class s = true -> closed_at_btn (dispatch_click Outside s).
Proof.
  intros Hs Ho. unfold dispatch_click.
  rewrite document_phase_open_click by eauto using synced_open_listeners.
  unfold outsideClickHandler; simpl. eauto with menu.
Qed.

(** C11: activating the trigger of an open menu closes it. *)
Theorem btn_click_closes s :
  synced s -> open_class s = true -> closed_at_btn (dispatch_click OnBtn s).
Proof. intros Hs Ho. rewrite dispatch_btn_open by done. eauto with menu. Qed.

(** A click on (or inside) a link of the panel runs [closeMenu]. *)
Lemma dropdown_link_closes s id a :
  synced s -> closest_a (panel s) id = Some a -> closed_at_btn (dispatch_click (OnPanelElem id) s).
Proof.
  intros Hs Ha. unfold dispatch_click, dropdownClickHandler. rewrite Ha.
  assert (Hc : closed_at_btn (closeMenu s)) by eauto with menu.
  by rewrite closed_at_btn_document_phase.
Qed.

(** C16: a click on a link of the panel (or inside one) closes the menu and
    lets the navigation proceed. *)
Theorem link_click_closes s id a :
  synced s -> open_class s = true -> closest_a (panel s) id = Some a ->
  closed_at_btn (dispatch_click (OnPanelElem id) s).
Proof. intros Hs _ Ha. by apply dropdown_link_closes with a. Qed.

(** An anchor found by its identity is its own [closest('a')]. *)
Lemma find_elem_closest_a ns id e :
  find_elem ns id = Some e -> matches SelA e = true -> closest_a ns id = Some e.
Proof.
  unfold find_elem, closest_a, anchors_on_path. intros He Hm.
  destruct (list_find _ (flatten ns)) as [[? [e' anc]]|]; [|done]. injection He as ->.
  cbn [List.filter]. by rewrite Hm.
Qed.

(** C30: Enter on a focused link of the panel closes the menu: no listener
    cancels the keydown, so its default action clicks the link, and the
    panel's click listener runs [closeMenu] (the spec's "activating a link
    inside the panel"). *)
Theorem enter_on_link_closes s id e :
  synced s -> active s = FocusItem id -> find_elem (panel s) id = Some e ->
  el_tag e = "a" -> is_Some (get_attr (el_attrs e) "href") ->
  closed_at_btn (press_key "Enter" s).
Proof.
  intros Hs Ha He Ht Hh. rewrite press_key_activation_other by (done || by rewrite Ha).
  unfold keydown_default. rewrite Ha. simpl. rewrite He.
  assert (Hact : activates "Enter" e = true).
  { unfold activates. rewrite Ht, bool_decide_true by done. done. }
  rewrite Hact. apply dropdown_link_closes with e; [done|].
  apply find_elem_closest_a; [done|]. unfold matches. by rewrite Ht.
Qed.

(** C17: a click inside the panel that is not on a link changes nothing. *)
Theorem panel_click_keeps_open s id :
  synced s -> open_class s = true -> contains_id (panel s) id = true ->
  closest_a (panel s) id = None -> dispatch_click (OnPanelElem id) s = s.
Proof.
  intros Hs Ho Hin Ha. unfold dispatch_click, dropdownClickHandler. rewrite Ha.
  rewrite document_phase_open_click by eauto using synced_open_listeners.
  unfold outsideClickHandler; simpl. by rewrite Hin.
Qed.

(** ** Opening *)

(** C10: activating the trigger of a closed menu whose content is loaded
    opens it: [aria-expanded="true"], the [open] class, the two [document]
    listeners, and focus on the first focusable item of the panel. *)
Theorem btn_click_opens_loaded s e :
  synced s -> open_class s = false -> menu_loaded s = true ->
  ui (dispatch_click OnBtn s) = (Some "true", true, listeners_for true) /\
  (query SelFocusable (panel s) = Some e -> el_focusable e = true ->
   active (dispatch_click OnBtn s) = FocusItem (el_id e)).
Proof.
  intros Hs Ho Hl. rewrite dispatch_click_btn_loaded by done. split.
  - apply ui_openMenu, synced_listeners, Hs.
  - apply active_openMenu.
Qed.

(** The trigger's click listener on a closed menu that is not loaded. *)
Lemma btnClickHandler_unloaded s :
  synced s -> open_class s = false -> menu_loaded s = false ->
  btnClickHandler s = start_fetch (set_inner_html loading_note s).
Proof.
  intros Hs Ho Hl. unfold btnClickHandler.
  rewrite bool_decide_false by eauto using synced_closed_expanded. by rewrite Hl.
Qed.

(** C12: activating the trigger of a closed menu that is not loaded shows the
    loading note and sends one request, leaving the menu closed until the
    request settles. *)
Theorem btn_click_starts_load s :
  synced s -> open_class s = false -> menu_loaded s = false ->
  let s' := dispatch_click OnBtn s in
  panel s' = loading_note /\ requests s' = S (requests s) /\
  awaiting_fetch s' = S (awaiting_fetch s) /\ ui s' = ui s /\ menu_loaded s' = false.
Proof.
  intros Hs Ho Hl. unfold dispatch_click. rewrite btnClickHandler_unloaded by done.
  rewrite document_phase_closed by (simpl; eauto using synced_closed_listeners).
  by repeat split.
Qed.

(** ** Arrow keys on the open menu *)

Lemma active_index_at (items : list elem) (i : nat) e :
  NoDup (map el_id items) -> items !! i = Some e ->
  active_index (FocusItem (el_id e)) items = Z.of_nat i.
Proof.
  intros Hnd Hi. simpl. apply index_of_lookup; [done|]. by rewrite list_lookup_fmap, Hi.
Qed.

(** C15: with the menu open, ArrowDown on the last item focuses the first and
    ArrowUp on the first focuses the last. *)
Theorem keyHandler_wraps s (items : list elem) e_first e_last :
  open_class s = true -> query_all SelFocusable (panel s) = items ->
  NoDup (map el_id items) -> head items = Some e_first -> last items = Some e_last ->
  (active s = FocusItem (el_id e_last) -> keyHandler "ArrowDown" s = Some (focus_elem e_first s)) /\
  (active s = FocusItem (el_id e_first) -> keyHandler "ArrowUp" s = Some (focus_elem e_last s)).
Proof.
  intros Ho Hq Hnd Hh Hlast. destruct (arrow_wraps items) as [Hd Hu]; [by intros ->|].
  assert (Hn : length items <> 0) by (destruct items; simpl in *; [discriminate|lia]).
  unfold keyHandler; simpl; rewrite Ho, Hq; simpl.
  destruct (Nat.eqb_spec (length items) 0) as [|_]; [done|]. split; intros Ha; rewrite Ha.
  - rewrite last_lookup in Hlast. rewrite (active_index_at items _ e_last Hnd Hlast).
    replace (Z.of_nat (pred (length items))) with (Z.of_nat (length items) - 1)%Z by lia.
    by rewrite Hd, Hh.
  - rewrite head_lookup in Hh. rewrite (active_index_at items 0 e_first Hnd Hh). change (Z.of_nat 0) with 0%Z.
    by rewrite Hu, Hlast.
Qed.

(** C21: with focus outside the items (on the trigger, the panel or anywhere
    else), ArrowDown focuses the first item, but ArrowUp focuses
    [items[n-2]], the second to last: [indexOf] gives [-1] and
    [(-1 - 1 + n) % n = n - 2]. *)
Theorem keyHandler_from_outside s (items : list elem) e_first e_up :
  open_class s = true -> query_all SelFocusable (panel s) = items -> (2 <= length items)%nat ->
  (forall id, active s = FocusItem id -> id ∉ map el_id items) ->
  head items = Some e_first -> items !! (length items - 2)%nat = Some e_up ->
  keyHandler "ArrowDown" s = Some (focus_elem e_first s) /\
  keyHandler "ArrowUp" s = Some (focus_elem e_up s).
Proof.
  intros Ho Hq Hn Hout Hh Hu.
  assert (Hidx : active_index (active s) items = (-1)%Z).
  { destruct (active s) eqn:Ha; try done. simpl. apply index_of_not_in. by apply Hout. }
  destruct (arrow_from_outside items Hn) as [Hd Hup].
  unfold keyHandler; simpl. rewrite Ho, Hq.
  destruct (Nat.eqb_spec (length items) 0) as [|_]; [lia|]. rewrite Hidx, Hd, Hup, Hh, Hu. done.
Qed.

(** ** Behaviours the spec does not describe *)

(** The trigger's keydown listener on a closed, loaded menu, for the keys it
    handles: [openMenu], then focus on the first item. *)
Lemma btnKeydownHandler_opens k s e :
  (k === "ArrowDown") || (k === "Enter") || (k === " ") = true ->
  synced s -> open_class s = false -> menu_loaded s = true ->
  query SelFocusable (panel s) = Some e -> el_focusable e = true ->
  btnKeydownHandler k s = set_active (FocusItem (el_id e)) (openMenu s).
Proof.
  intros Hk Hs Ho Hl Hq Hf. unfold btnKeydownHandler. rewrite Hk, Ho.
  rewrite dispatch_click_btn_loaded by done.
  destruct (openMenu_facts s Hs) as (Hp & _ & _). rewrite Hp, Hq. unfold focus_elem. by rewrite Hf.
Qed.

(** C22: on a closed, loaded menu, Enter on the trigger opens it with focus on
    the first item, but ArrowDown focuses the second: [openMenu], run by
    the trigger's keydown listener through [btn.click()], registers
    [keyHandler] on [document] while the same keydown is being dispatched,
    and it handles the ArrowDown when the event reaches [document]. *)
Theorem btn_arrowdown_focuses_second s e1 e2 rest :
  synced s -> open_class s = false -> menu_loaded s = true -> active s = FocusBtn ->
  query_all SelFocusable (panel s) = e1 :: e2 :: rest -> NoDup (map el_id (e1 :: e2 :: rest)) ->
  el_focusable e1 = true -> el_focusable e2 = true ->
  active (press_key "ArrowDown" s) = FocusItem (el_id e2) /\
  active (press_key "Enter" s) = FocusItem (el_id e1).
Proof.
  intros Hs Ho Hl Ha Hq Hnd Hf1 Hf2. rewrite !press_key_btn_key by done.
  assert (Hq1 : query SelFocusable (panel s) = Some e1) by (unfold query; by rewrite Hq).
  destruct (openMenu_facts s Hs) as (Hp & Ho' & Hd).
  unfold dispatch_keydown, keydown_target_phase. rewrite Ha.
  rewrite !(btnKeydownHandler_opens _ s e1) by done.
  set (s2 := set_active (FocusItem (el_id e1)) (openMenu s)).
  assert (H2 : open_class s2 = true /\ panel s2 = panel s /\
               doc_listeners s2 = listeners_for true /\ active s2 = FocusItem (el_id e1))
    by (subst s2; simpl; done).
  clearbody s2. destruct H2 as (Ho2 & Hp2 & Hd2 & Ha2).
  rewrite !document_phase_open_key by done. split; [|by unfold keyHandler; simpl].
  unfold keyHandler; simpl. rewrite Ho2, Hp2, Hq, Ha2.
  rewrite (active_index_at (e1 :: e2 :: rest) 0 e1) by done.
  destruct (arrow_neighbours (e1 :: e2 :: rest) 0) as [-> _]; [simpl; lia|].
  simpl. unfold focus_elem. by rewrite Hf2.
Qed.

(** Enter on the trigger is its listener alone: it cancels the default
    click and no [document] listener reacts to Enter. *)
Lemma press_key_enter_btn s : active s = FocusBtn -> press_key "Enter" s = btnKeydownHandler "Enter" s.
Proof.
  intros Ha. rewrite press_key_btn_key by (done || by rewrite Ha).
  unfold dispatch_keydown, keydown_target_phase. rewrite Ha. by apply document_phase_activation.
Qed.

Lemma ui_btnKeydown_focus s :
  ui (match query SelFocusable (panel s) with Some first => focus_elem first s | None => s end) = ui s.
Proof. case_match; [apply ui_focus_elem|done]. Qed.

(** C31: Enter on the trigger of an open menu does not close it: the
    trigger's keydown listener cancels the default click (line 99), does
    not call [btn.click()] on an open panel (line 100) and moves focus to
    the first item (line 102); the spec says re-activating the trigger
    closes the panel. *)
Theorem enter_on_open_trigger_stays_open s :
  synced s -> open_class s = true -> active s = FocusBtn ->
  ui (press_key "Enter" s) = (Some "true", true, listeners_for true) /\
  active (press_key "Enter" s) =
    match query SelFocusable (panel s) with
    | Some e => if el_focusable e then FocusItem (el_id e) else FocusBtn
    | None => FocusBtn
    end.
Proof.
  intros Hs Ho Ha. rewrite press_key_enter_btn by done. unfold btnKeydownHandler. simpl.
  rewrite Ho. split.
  - rewrite ui_btnKeydown_focus. unfold ui. by rewrite (synced_open_expanded s), (synced_open_listeners s), Ho.
  - case_match; [|done]. unfold focus_elem. by case_match.
Qed.

(** C32: Enter on the trigger of a closed, loaded menu opens it once: the
    listener's [btn.click()] opens it, and cancelling the keydown (line 99)
    keeps the browser's own click from closing it again. *)
Theorem enter_on_closed_trigger_opens s :
  synced s -> open_class s = false -> menu_loaded s = true -> active s = FocusBtn ->
  ui (press_key "Enter" s) = (Some "true", true, listeners_for true).
Proof.
  intros Hs Ho Hl Ha. rewrite press_key_enter_btn by done. unfold btnKeydownHandler. simpl.
  rewrite Ho, dispatch_click_btn_loaded by done.
  rewrite ui_btnKeydown_focus. apply ui_openMenu, synced_listeners, Hs.
Qed.

(** C23: two activations of the trigger before the first request settles
    send two requests: [menuLoaded] is only set when a load finishes, and
    the menu stays closed meanwhile, so the second click takes the loading
    path again. *)
Theorem double_click_two_requests s :
  synced s -> open_class s = false -> menu_loaded s = false ->
  let s2 := dispatch_click OnBtn (dispatch_click OnBtn s) in
  requests s2 = S (S (requests s)) /\ awaiting_fetch s2 = S (S (awaiting_fetch s)).
Proof.
  intros Hs Ho Hl. unfold dispatch_click at 2. rewrite btnClickHandler_unloaded by done.
  rewrite document_phase_closed by (simpl; eauto using synced_closed_listeners).
  set (s1 := start_fetch (set_inner_html loading_note s)).
  assert (Hs1 : synced s1) by (subst s1; eauto with menu).
  unfold dispatch_click. rewrite btnClickHandler_unloaded by (subst s1; done).
  rewrite document_phase_closed by (subst s1; simpl; eauto using synced_closed_listeners).
  done.
Qed.

Lemma double_click_two_requests_witness :
  synced (initial (Some "false") [] false) /\ open_class (initial (Some "false") [] false) = false /\
  menu_loaded (initial (Some "false") [] false) = false /\
  requests (dispatch_click OnBtn (dispatch_click OnBtn (initial (Some "false") [] false))) = 2.
Proof.
  assert (Hs : synced (initial (Some "false") [] false)) by (apply synced_initial; discriminate).
  split; [exact Hs|]. split; [reflexivity|]. split; [reflexivity|].
  apply (double_click_two_requests (initial (Some "false") [] false) Hs); reflexivity.
Defined.

(** C24: closing the menu does not cancel a pending load, which reopens
    it when it settles: from any open state with a call of [loadMenuHtml]
    suspended (after two quick clicks, say), a click on the trigger closes
    the menu and keeps every pending load, and once the event loop has
    delivered their settlements, whatever [fetch] and [res.text()] give,
    the menu is open again with [aria-expanded="true"] (line 93 runs
    [openMenu] without checking the state). *)
Theorem stale_load_reopens s r b :
  synced s -> open_class s = true -> awaiting_fetch s <> 0 ->
  let s1 := dispatch_click OnBtn s in
  closed_at_btn s1 /\ weight s1 = weight s /\
  open_class (drain (weight s1) r b s1) = true /\
  aria_expanded (drain (weight s1) r b s1) = Some "true".
Proof.
  intros Hs Ho Hf s1. subst s1. rewrite dispatch_btn_open by done.
  assert (Hw : weight (closeMenu s) = weight s) by done. rewrite Hw.
  destruct (drain_spec (weight s) r b (closeMenu s)) as (Hrun & _ & _ & Hdone); [lia|].
  destruct Hdone as [_ Ho']; [unfold weight in *; lia|].
  split_and!; [eauto with menu|done|done|].
  apply synced_open_expanded; [|done]. eapply synced_run; [|exact Hrun]. eauto with menu.
Qed.

(** ** Instances *)

Lemma escape_closes_witness : closed_at_btn (press_key "Escape" demo_open).
Proof. apply escape_closes; [synced_by_computation|vm_compute; reflexivity]. Defined.

Lemma outside_click_closes_witness : closed_at_btn (dispatch_click Outside demo_open).
Proof. apply outside_click_closes; [synced_by_computation|vm_compute; reflexivity]. Defined.

Lemma btn_click_closes_witness : closed_at_btn (dispatch_click OnBtn demo_open).
Proof. apply btn_click_closes; [synced_by_computation|vm_compute; reflexivity]. Defined.

Lemma link_click_closes_witness : closed_at_btn (dispatch_click (OnPanelElem 3) demo_open).
Proof.
  apply (link_click_closes demo_open 3 demo_home);
    [synced_by_computation|vm_compute; reflexivity|vm_compute; reflexivity].
Defined.

Lemma panel_click_keeps_open_witness : dispatch_click (OnPanelElem 2) demo_open = demo_open.
Proof.
  apply panel_click_keeps_open;
    [synced_by_computation|vm_compute; reflexivity|vm_compute; reflexivity|vm_compute; reflexivity].
Defined.

Lemma btn_click_opens_loaded_witness :
  ui (dispatch_click OnBtn demo_closed) = (Some "true", true, listeners_for true) /\
  (query SelFocusable (panel demo_closed) = Some demo_home -> el_focusable demo_home = true ->
   active (dispatch_click OnBtn demo_closed) = FocusItem (el_id demo_home)).
Proof.
  apply btn_click_opens_loaded; [synced_by_computation|vm_compute; reflexivity|vm_compute; reflexivity].
Defined.

Lemma btn_click_starts_load_witness :
  let s' := dispatch_click OnBtn demo_start in
  panel s' = loading_note /\ requests s' = S (requests demo_start) /\
  awaiting_fetch s' = S (awaiting_fetch demo_start) /\ ui s' = ui demo_start /\
  menu_loaded s' = false.
Proof.
  apply btn_click_starts_load; [synced_by_computation|vm_compute; reflexivity|vm_compute; reflexivity].
Defined.

Lemma keyHandler_wraps_witness :
  (active demo_open = FocusItem (el_id demo_about) ->
   keyHandler "ArrowDown" demo_open = Some (focus_elem demo_home demo_open)) /\
  (active demo_open = FocusItem (el_id demo_home) ->
   keyHandler "ArrowUp" demo_open = Some (focus_elem demo_about demo_open)).
Proof.
  apply (keyHandler_wraps demo_open [demo_home; demo_docs; demo_about]);
    try (vm_compute; reflexivity). apply (bool_decide_unpack _). vm_compute. reflexivity.
Defined.

Lemma keyHandler_from_outside_witness :
  keyHandler "ArrowDown" demo_focus_out = Some (focus_elem demo_home demo_focus_out) /\
  keyHandler "ArrowUp" demo_focus_out = Some (focus_elem demo_docs demo_focus_out).
Proof.
  apply (keyHandler_from_outside demo_focus_out [demo_home; demo_docs; demo_about]);
    try (vm_compute; reflexivity); [simpl; lia|].
  intros id Hid. vm_compute in Hid. discriminate.
Defined.

Lemma enter_on_link_closes_witness : closed_at_btn (press_key "Enter" demo_open).
Proof.
  apply (enter_on_link_closes demo_open 3 demo_home); try (vm_compute; reflexivity).
  - synced_by_computation.
  - vm_compute. eexists. reflexivity.
Defined.

Lemma enter_on_open_trigger_stays_open_witness :
  ui (press_key "Enter" demo_open_btn) = (Some "true", true, listeners_for true) /\
  active (press_key "Enter" demo_open_btn) =
    match query SelFocusable (panel demo_open_btn) with
    | Some e => if el_focusable e then FocusItem (el_id e) else FocusBtn
    | None => FocusBtn
    end.
Proof.
  apply enter_on_open_trigger_stays_open; [synced_by_computation|vm_compute; reflexivity..].
Defined.

Lemma enter_on_closed_trigger_opens_witness :
  ui (press_key "Enter" demo_closed) = (Some "true", true, listeners_for true).
Proof.
  apply enter_on_closed_trigger_opens; [synced_by_computation|vm_compute; reflexivity..].
Defined.

Lemma btn_arrowdown_focuses_second_witness :
  active (press_key "ArrowDown" demo_closed) = FocusItem (el_id demo_docs) /\
  active (press_key "Enter" demo_closed) = FocusItem (el_id demo_home).
Proof.
  apply (btn_arrowdown_focuses_second demo_closed demo_home demo_docs [demo_about]);
    try (vm_compute; reflexivity); [synced_by_computation|].
  apply (bool_decide_unpack _). vm_compute. reflexivity.
Defined.

Lemma stale_load_reopens_witness :
  let r := FetchResponse 200 "OK" in let b := BodyText sample_menu in
  let s1 := dispatch_click OnBtn demo_double in
  closed_at_btn s1 /\ weight s1 = weight demo_double /\
  open_class (drain (weight s1) r b s1) = true /\
  aria_expanded (drain (weight s1) r b s1) = Some "true".
Proof.
  apply (stale_load_reopens demo_double); [synced_by_computation|vm_compute; reflexivity|vm_compute; discriminate].
Defined.
