(* ===== verification/Refinement.v ===== *)
(** * Refinement: the widget implements the spec's open/closed machine

    The spec (sections 3 and 4.1) describes the widget as a machine with
    two states, closed and open, a lazily loaded panel fetched at most
    once, and the events that move it: activating the trigger toggles it,
    the keyboard on the trigger opens it, Escape, an outside click and a
    link close it, and the end of the load opens it.  [abs_step] is that
    machine, with the one behaviour of the code the spec leaves open: an
    activation while a load is pending starts another, as nothing but
    [menuLoaded] is tested (line 89).  [alpha] maps a widget state to it;
    [abs_of_event] says which abstract event a concrete event is.  The
    refinement theorem shows every step of the widget is the abstract step
    of its event; in runs in which the user waits for the load to finish
    ([seq_reachable]) the abstract machine keeps an invariant whose
    corollary is the spec's "one request per page". *)

From stdpp Require Import base list strings sets.
From Stdlib Require Import ZArith Lia.
From S2P Require Import Prelude Dom Traversal Menu MenuInv Loading Interaction.

(** ** The abstract machine *)

Record abs_menu := AbsMenu {
  a_open : bool;      (** the panel is open *)
  a_loaded : bool;    (** the content is loaded (or failed to) *)
  a_pending : nat;    (** loads in progress *)
  a_requests : nat;   (** requests sent *)
}.

Inductive abs_event := Activate | KeyboardOpen | Dismiss | Settle | Stutter.

Definition abs_close (a : abs_menu) : abs_menu :=
  AbsMenu false (a_loaded a) (a_pending a) (a_requests a).

(** Opening a closed menu: at once when loaded, else by starting a load.
    Nothing marks a load in flight (line 89 tests [menuLoaded] only), so
    an activation while one is pending starts another. *)
Definition abs_open_closed (a : abs_menu) : abs_menu :=
  if a_loaded a then AbsMenu true true (a_pending a) (a_requests a)
  else AbsMenu false false (S (a_pending a)) (S (a_requests a)).

Definition abs_step (e : abs_event) (a : abs_menu) : abs_menu :=
  match e with
  | Activate => if a_open a then abs_close a else abs_open_closed a
  | KeyboardOpen => if a_open a then a else abs_open_closed a
  | Dismiss => abs_close a
  | Settle => AbsMenu true true (pred (a_pending a)) (a_requests a)
  | Stutter => a
  end.

Definition abs_initial : abs_menu := AbsMenu false false 0 0.

(** ** The abstraction *)

Definition alpha (s : menu) : abs_menu :=
  AbsMenu (open_class s) (menu_loaded s) (awaiting_fetch s + awaiting_body s) (requests s).

(** The abstract event a click is, in the state it happens in. *)
Definition abs_of_click (s : menu) (t : click_target) : abs_event :=
  match t with
  | OnBtn => Activate
  | OnPanel => Stutter
  | OnPanelElem id =>
      match closest_a (panel s) id with
      | Some _ => Dismiss
      | None => if contains_id (panel s) id then Stutter else Dismiss
      end
  | Outside => Dismiss
  end.

(** The abstract event the dispatch of a key is. *)
Definition abs_of_key (s : menu) (k : string) : abs_event :=
  if k === "Escape" then Dismiss
  else if bool_decide (active s = FocusBtn) &&
          ((k === "ArrowDown") || (k === "Enter") || (k === " "))
  then KeyboardOpen else Stutter.

(** The click the default action of a key is: Enter or Space on an item
    of the panel the key activates. *)
Definition abs_of_default (s : menu) (k : string) : option abs_event :=
  match active s with
  | FocusItem id =>
      match find_elem (panel s) id with
      | Some e => if activates k e then Some (abs_of_click s (OnPanelElem id)) else None
      | None => None
      end
  | _ => None
  end.

(** The abstract event a concrete event is, in the state it happens in. *)
Definition abs_of_event (s : menu) (ev : event) : abs_event :=
  match ev with
  | UserClick t => abs_of_click s t
  | UserKeydown k => match abs_of_default s k with Some a => a | None => abs_of_key s k end
  | FetchSettles (FetchRejected _) => Settle
  | FetchSettles (FetchResponse st _) => if response_ok st then Stutter else Settle
  | BodySettles _ => Settle
  | UserFocus _ | WindowResize => Stutter
  end.

(** ** Sequential runs: the user waits for the load to finish *)

Definition user_event (ev : event) : bool :=
  match ev with FetchSettles _ | BodySettles _ => false | _ => true end.

Definition quiet (s : menu) : Prop := awaiting_fetch s = 0 /\ awaiting_body s = 0.

Inductive seq_reachable (s0 : menu) : menu -> Prop :=
| seq_init : seq_reachable s0 s0
| seq_step ev s s' :
    seq_reachable s0 s -> (user_event ev = true -> quiet s) -> step ev s = Some s' ->
    seq_reachable s0 s'.

(** A run that refuses a user event while a load is pending. *)
Fixpoint seq_run (evs : list event) (s : menu) : option menu :=
  match evs with
  | [] => Some s
  | ev :: rest =>
      if user_event ev && negb (Nat.eqb (awaiting_fetch s + awaiting_body s) 0) then None
      else s' ← step ev s; seq_run rest s'
  end.

(** What the abstract machine keeps on its own runs: no request before the
    first activation, then exactly one, in progress or finished. *)
Definition abs_inv (a : abs_menu) : Prop :=
  (a_requests a = 0 /\ a_loaded a = false /\ a_pending a = 0) \/
  (a_requests a = 1 /\ ((a_loaded a = false /\ a_pending a = 1) \/
                        (a_loaded a = true /\ a_pending a = 0))).

(** ** How [alpha] sees the operations *)

Lemma alpha_closeMenu s : alpha (closeMenu s) = abs_close (alpha s).
Proof. done. Qed.

Lemma alpha_openMenu s :
  alpha (openMenu s) = AbsMenu true (menu_loaded s) (a_pending (alpha s)) (requests s).
Proof.
  unfold openMenu, focus_first, focus_elem, focus_dropdown, add_event_listener.
  by repeat case_match.
Qed.

Lemma alpha_focus_elem e s : alpha (focus_elem e s) = alpha s.
Proof. unfold focus_elem. by case_match. Qed.

Lemma alpha_closed s : open_class s = false -> abs_close (alpha s) = alpha s.
Proof. intros H. unfold abs_close, alpha. by rewrite H. Qed.

Lemma abs_close_idem a : abs_close (abs_close a) = abs_close a.
Proof. done. Qed.

#[export] Hint Rewrite alpha_closeMenu alpha_openMenu alpha_focus_elem abs_close_idem : ui_rw.

(** [document]'s listeners: the outside-click handler closes on a click
    outside both elements, [keyHandler] closes on Escape, and nothing else
    changes what [alpha] sees. *)
Lemma alpha_document_phase_key k s :
  synced s ->
  alpha (document_phase (KeydownEvent k) s) =
    if k === "Escape" then abs_close (alpha s) else alpha s.
Proof.
  intros Hs. destruct (open_class s) eqn:Ho.
  - rewrite document_phase_open_key by eauto using synced_open_listeners.
    unfold keyHandler. destruct (k === "Escape"); [done|].
    repeat case_match; simpl; rewrite ?alpha_focus_elem; done.
  - rewrite document_phase_closed by eauto using synced_closed_listeners.
    case_match; [by rewrite alpha_closed|done].
Qed.

Lemma alpha_document_phase_click t s :
  synced s ->
  alpha (document_phase (ClickEvent t) s) =
    if negb (in_dropdown s t) && negb (in_btn t) then abs_close (alpha s) else alpha s.
Proof.
  intros Hs. destruct (open_class s) eqn:Ho.
  - rewrite document_phase_open_click by eauto using synced_open_listeners.
    unfold outsideClickHandler. by case_match.
  - rewrite document_phase_closed by eauto using synced_closed_listeners.
    case_match; [by rewrite alpha_closed|done].
Qed.

(** ** Each user event is its abstract event *)

Lemma alpha_btnClickHandler s :
  synced s -> alpha (btnClickHandler s) = abs_step Activate (alpha s).
Proof.
  intros Hs. unfold btnClickHandler, abs_step.
  change (a_open (alpha s)) with (open_class s). destruct (open_class s) eqn:Ho.
  - rewrite bool_decide_true by eauto using synced_open_expanded. apply alpha_closeMenu.
  - rewrite bool_decide_false by eauto using synced_closed_expanded.
    destruct (menu_loaded s) eqn:Hl.
    + rewrite alpha_openMenu. unfold abs_open_closed, alpha; simpl. by rewrite Hl.
    + unfold abs_open_closed, alpha; simpl. by rewrite Ho, Hl.
Qed.

Lemma alpha_dispatch_click t s :
  synced s ->
  alpha (dispatch_click t s) = abs_step (abs_of_event s (UserClick t)) (alpha s).
Proof.
  intros Hs. unfold dispatch_click.
  destruct t as [| |id|]; simpl abs_of_event.
  - rewrite alpha_document_phase_click by auto with menu. simpl.
    by apply alpha_btnClickHandler.
  - rewrite alpha_document_phase_click by auto with menu. done.
  - unfold dropdownClickHandler. destruct (closest_a (panel s) id) eqn:Ha.
    + rewrite alpha_document_phase_click by auto with menu.
      case_match; by autorewrite with ui_rw.
    + rewrite alpha_document_phase_click by auto with menu. simpl.
      by destruct (contains_id (panel s) id).
  - rewrite alpha_document_phase_click by auto with menu. done.
Qed.

(** The Escape listeners of the links on the focused element's path. *)
Lemma alpha_link_phase k (l : list elem) s :
  synced s ->
  let s' := fold_left (fun x _ => linkKeydownHandler k x) l s in
  synced s' /\ (if k === "Escape" then abs_close (alpha s') = abs_close (alpha s)
               else alpha s' = alpha s).
Proof.
  intros Hs. apply (fold_left_preserves (fun x => synced x /\
    (if k === "Escape" then abs_close (alpha x) = abs_close (alpha s) else alpha x = alpha s)));
    [|by destruct (k === "Escape")].
  intros x [Hx Ha]. unfold linkKeydownHandler.
  destruct (k === "Escape"); split; auto with menu.
Qed.

Lemma alpha_btnKeydownHandler k s :
  synced s -> (k === "ArrowDown") || (k === "Enter") || (k === " ") = true ->
  synced (btnKeydownHandler k s) /\
  alpha (btnKeydownHandler k s) = abs_step KeyboardOpen (alpha s).
Proof.
  intros Hs Hk. unfold btnKeydownHandler. rewrite Hk.
  split; [repeat case_match; eauto with menu|].
  unfold abs_step. change (a_open (alpha s)) with (open_class s).
  destruct (open_class s) eqn:Ho; [case_match; [apply alpha_focus_elem|done]|].
  pose proof (alpha_dispatch_click OnBtn s Hs) as Hc. simpl in Hc.
  unfold abs_step in Hc. change (a_open (alpha s)) with (open_class s) in Hc. rewrite Ho in Hc.
  case_match; rewrite ?alpha_focus_elem; exact Hc.
Qed.

Lemma alpha_dispatch_keydown k s :
  synced s ->
  alpha (dispatch_keydown k s) = abs_step (abs_of_key s k) (alpha s).
Proof.
  intros Hs. unfold dispatch_keydown, keydown_target_phase, abs_of_key.
  destruct (k === "Escape") eqn:He.
  - apply String.eqb_eq in He as ->.
    destruct (active s) eqn:Ha; [| |destruct (links_bound s)|];
      rewrite ?alpha_document_phase_key by auto with menu; try done.
    destruct (alpha_link_phase "Escape" (anchors_on_path (panel s) id) s Hs) as [Hs' Ha'].
    rewrite alpha_document_phase_key by done. exact Ha'.
  - destruct (active s) eqn:Ha; simpl.
    + destruct ((k === "ArrowDown") || (k === "Enter") || (k === " ")) eqn:Hk.
      * destruct (alpha_btnKeydownHandler k s Hs Hk) as [Hs' Ha'].
        rewrite alpha_document_phase_key, He by done. exact Ha'.
      * unfold btnKeydownHandler. rewrite Hk, alpha_document_phase_key, He by done. done.
    + rewrite alpha_document_phase_key, He by done. done.
    + destruct (links_bound s); [|rewrite alpha_document_phase_key, He by done; done].
      destruct (alpha_link_phase k (anchors_on_path (panel s) id) s Hs) as [Hs' Ha'].
      rewrite He in Ha'. rewrite alpha_document_phase_key, He by done. exact Ha'.
    + rewrite alpha_document_phase_key, He by done. done.
Qed.

(** A key press: Enter or Space on an item it activates is a click on it;
    every other press is its dispatch. *)
Lemma alpha_press_key k s :
  synced s ->
  alpha (press_key k s) = abs_step (abs_of_event s (UserKeydown k)) (alpha s).
Proof.
  intros Hs. simpl. destruct ((k === "Enter") || (k === " ")) eqn:Hk.
  - destruct (decide (active s = FocusBtn)) as [Ha|Ha].
    + rewrite press_key_btn_key; [|done|by destruct (activation_key_cases k Hk) as [-> | ->]].
      unfold abs_of_default.
      rewrite Ha. by apply alpha_dispatch_keydown.
    + rewrite press_key_activation_other by done. unfold keydown_default, abs_of_default.
      destruct (active s) eqn:Ha'; try done;
        try (destruct (activation_key_cases k Hk) as [-> | ->]; unfold abs_of_key;
             by rewrite Ha', bool_decide_false).
      destruct (find_elem (panel s) id) as [e|]; [destruct (activates k e)|];
        [by apply (alpha_dispatch_click (OnPanelElem id))|..];
        destruct (activation_key_cases k Hk) as [-> | ->]; unfold abs_of_key;
        by rewrite Ha', bool_decide_false.
  - rewrite press_key_no_default by done. unfold abs_of_default.
    destruct (active s); try by apply alpha_dispatch_keydown.
    destruct (find_elem (panel s) id); [rewrite activates_other by done|]; by apply alpha_dispatch_keydown.
Qed.

(** ** Settlements are the abstract [Settle] (or nothing, for a response
    whose body is still to be read) *)

Lemma alpha_fetch_settled r s :
  awaiting_fetch s <> 0 ->
  alpha (fetch_settled r s) = abs_step (abs_of_event s (FetchSettles r)) (alpha s).
Proof.
  intros Hf. unfold fetch_settled, abs_of_event.
  destruct r as [why|st txt]; [|destruct (response_ok st)];
    rewrite ?alpha_openMenu; unfold alpha; simpl; f_equal; lia.
Qed.

Lemma alpha_body_settled b s :
  awaiting_body s <> 0 ->
  alpha (body_settled b s) = abs_step (abs_of_event s (BodySettles b)) (alpha s).
Proof.
  intros Hb. unfold body_settled, abs_of_event.
  destruct b as [why|frag]; rewrite alpha_openMenu; unfold alpha; simpl.
  - f_equal. lia.
  - unfold load_succeeded. case_match; simpl; f_equal; lia.
Qed.

(** Every step, by cases on the event. *)
Lemma alpha_step ev s s' :
  synced s -> step ev s = Some s' ->
  alpha s' = abs_step (abs_of_event s ev) (alpha s).
Proof.
  intros Hs Hst. destruct ev; simpl in Hst; repeat case_match; simplify_eq;
    auto using alpha_dispatch_click, alpha_press_key.
  - apply alpha_fetch_settled. lia.
  - apply alpha_body_settled. lia.
Qed.

(** C2: the widget refines the open/closed machine: from a [synced] state,
    every step the widget takes (any click, key press, settlement, focus
    move or resize, also while a load is pending) changes the open flag,
    the loaded flag, the loads in progress and the request count exactly
    as the abstract machine does on the event's abstract counterpart
    (trigger activation, keyboard opening, dismissal, end of the load, or
    nothing). *)
Theorem refinement_step ev s s' :
  synced s -> step ev s = Some s' ->
  alpha s' = abs_step (abs_of_event s ev) (alpha s).
Proof. apply alpha_step. Qed.

(** ** The abstract machine sends one request *)

Lemma abs_inv_step e a :
  abs_inv a -> (e = Settle -> a_pending a <> 0) ->
  (e = Activate \/ e = KeyboardOpen -> a_pending a = 0) -> abs_inv (abs_step e a).
Proof.
  unfold abs_inv, abs_step, abs_open_closed, abs_close.
  intros Ha He Hu. destruct e; simpl;
    repeat (case_match; simpl in *); destruct_and?; simplify_eq; naive_solver lia.
Qed.

(** The network's events are the end of a load or nothing. *)
Lemma abs_of_settlement s ev :
  user_event ev = false -> abs_of_event s ev = Settle \/ abs_of_event s ev = Stutter.
Proof. destruct ev as [t|k|[why|st txt]|b|f|]; simpl; try done; intros _; auto. case_match; auto. Qed.

Lemma settle_pending ev s s' :
  abs_of_event s ev = Settle -> step ev s = Some s' -> a_pending (alpha s) <> 0.
Proof.
  unfold abs_of_event, abs_of_click, abs_of_key, abs_of_default. simpl. intros He Hst.
  destruct ev as [[| |id|]|k|r|b| |]; simpl in *; repeat case_match; simplify_eq; lia.
Qed.

(** C3: in a sequential run from the host's page (the user waits for the
    load to finish before the next click or key), at most one request is
    ever sent and at most one load is in progress: the spec's "fetched at
    most once per page load". *)
Theorem seq_at_most_one_request e0 c0 t s :
  e0 <> Some "true" -> seq_reachable (initial e0 c0 t) s ->
  requests s <= 1 /\ awaiting_fetch s + awaiting_body s <= 1.
Proof.
  intros He Hr.
  assert (H : synced s /\ abs_inv (alpha s)).
  { induction Hr as [|ev s s' Hr IH Hq Hst].
    - split; [by apply synced_initial|]. left. done.
    - destruct IH as [Hs Ha]. split; [eauto using synced_step|].
      rewrite (alpha_step ev s s' Hs Hst).
      apply abs_inv_step; [done|intros He'; eapply settle_pending; eauto|].
      intros Hu. destruct (user_event ev) eqn:Hev.
      + destruct (Hq eq_refl). unfold alpha; simpl. lia.
      + destruct (abs_of_settlement s ev Hev) as [E|E]; rewrite E in Hu; naive_solver. }
  destruct H as [_ [(Hq & _ & Hp) | (Hq & [(_ & Hp) | (_ & Hp)])]]; simpl in *; lia.
Qed.

Lemma seq_run_reachable s0 evs s : seq_run evs s0 = Some s -> seq_reachable s0 s.
Proof.
  enough (forall s1, seq_reachable s0 s1 -> seq_run evs s1 = Some s -> seq_reachable s0 s) by
    (apply H; constructor).
  induction evs as [|ev evs IH]; intros s1 H1 Hrun; simpl in Hrun; [by simplify_eq|].
  destruct (user_event ev && negb (Nat.eqb (awaiting_fetch s1 + awaiting_body s1) 0)) eqn:Hu;
    [done|].
  destruct (step ev s1) eqn:E; [|done]. eapply IH; [|done]. econstructor; eauto.
  intros Hev. rewrite Hev in Hu. simpl in Hu. apply negb_false_iff, Nat.eqb_eq in Hu.
  split; lia.
Qed.

(** ** Instances *)

Lemma refinement_step_witness :
  alpha (dispatch_click OnBtn demo_start) =
    abs_step (abs_of_event demo_start (UserClick OnBtn)) (alpha demo_start).
Proof.
  apply (refinement_step (UserClick OnBtn) demo_start); [synced_by_computation|reflexivity].
Defined.

Lemma seq_at_most_one_request_witness :
  requests demo_closed <= 1 /\ awaiting_fetch demo_closed + awaiting_body demo_closed <= 1.
Proof.
  apply (seq_at_most_one_request (Some "false") [] false demo_closed); [discriminate|].
  apply seq_run_reachable with (evs := UserClick OnBtn :: demo_ok ++ [UserClick OnBtn]).
  vm_compute. reflexivity.
Defined.
