(* ===== verification/Init.v ===== *)
(** * Init: [initHeader] and the page that calls it

    header.js, lines 4-14, 85-117: the IIFE exposes [window.initHeader];
    each call checks and sets [window._headerInitDone], looks up
    [#topMenuBtn] and [#topMenuDropdown], and when both exist creates a
    widget and binds its four listeners: click and keydown on the trigger,
    click on the panel, resize on the window.  Each setup creates fresh
    closures, so the browser would not merge the listeners of two setups.
    The page may call [initHeader] any number of times, insert the header
    markup at any time, and deliver events to the widgets.

    The page sees a widget through the class [Widget] (how one is created
    from the markup, how it takes an event); the Section [Page] is proved
    against this class only, and [Menu] provides the instance. *)

From stdpp Require Import base list strings.
From Stdlib Require Import Lia.
From S2P Require Import Prelude Dom Menu MenuInv.

(** The listeners one setup binds (lines 85, 97, 107, 113). *)
Inductive binding := BtnClick | BtnKeydown | DropdownClick | WindowResizeListener.

#[export] Instance binding_eq_dec : EqDecision binding.
Proof. solve_decision. Defined.

Definition setup_bindings : list binding := [BtnClick; BtnKeydown; DropdownClick; WindowResizeListener].

(** The trigger as the host renders it: its [aria-expanded] attribute. *)
Definition trigger := option string.

(** The panel as the host renders it: its children and whether it has a
    [tabindex]. *)
Definition panel_markup := (list node * bool)%type.

(** What the page needs of a widget. *)
Class Widget (W : Type) := {
  widget_create : trigger -> panel_markup -> W;
  widget_step : event -> W -> option W;
}.

Record window (W : Type) := mkWindow {
  header_init_done : bool;                 (** [window._headerInitDone] *)
  topMenuBtn : option trigger;             (** [getElementById('topMenuBtn')] *)
  topMenuDropdown : option panel_markup;   (** [getElementById('topMenuDropdown')] *)
  widgets : list W;                        (** one widget per setup, in order *)
  bindings : list (nat * binding);         (** listeners bound, with their setup's number *)
}.
Arguments mkWindow {W}.
Arguments header_init_done {W}.
Arguments topMenuBtn {W}.
Arguments topMenuDropdown {W}.
Arguments widgets {W}.
Arguments bindings {W}.

(** What the page does: call [window.initHeader()], insert the header
    markup (after fetching [header.html], for instance), or deliver an
    event to the [i]-th widget. *)
Inductive page_event :=
| CallInitHeader
| InsertHeader (x : trigger) (p : panel_markup)
| OnWidget (i : nat) (ev : event).

Section Page.
Context {W : Type} `{Widget W}.
Implicit Types (w : window W).

(** Lines 10-14, 85-113: a widget and its listeners. *)
Definition setup (m : W) (w : window W) : window W :=
  mkWindow (header_init_done w) (topMenuBtn w) (topMenuDropdown w) (widgets w ++ [m])
    (bindings w ++ map (pair (length (widgets w))) setup_bindings).

(** [initHeader], lines 6-14: the flag is set before the elements are looked
    up. *)
Definition initHeader (w : window W) : window W :=
  if header_init_done w then w
  else
    let w := mkWindow true (topMenuBtn w) (topMenuDropdown w) (widgets w) (bindings w) in
    match topMenuBtn w, topMenuDropdown w with
    | Some x, Some p => setup (widget_create x p) w
    | _, _ => w
    end.

Definition set_widgets (ms : list W) (w : window W) : window W :=
  mkWindow (header_init_done w) (topMenuBtn w) (topMenuDropdown w) ms (bindings w).

Definition page_step (e : page_event) (w : window W) : window W :=
  match e with
  | CallInitHeader => initHeader w
  | InsertHeader x p =>
      mkWindow (header_init_done w) (Some x) (Some p) (widgets w) (bindings w)
  | OnWidget i ev =>
      match widgets w !! i with
      | Some m =>
          match widget_step ev m with
          | Some m' => set_widgets (<[i := m']> (widgets w)) w
          | None => w
          end
      | None => w
      end
  end.

Definition page_run (es : list page_event) (w : window W) : window W :=
  fold_left (fun w e => page_step e w) es w.

(** The events the page delivers to one widget, as the widget takes them. *)
Fixpoint widget_run (evs : list event) (m : W) : option W :=
  match evs with
  | [] => Some m
  | ev :: rest => m' ← widget_step ev m; widget_run rest m'
  end.

(** A page on which the script has just run. *)
Definition fresh (b : option trigger) (p : option panel_markup) : window W :=
  mkWindow false b p [] [].

(** The invariant of the page: before the first call nothing is set up,
    after it at most one widget exists with exactly its four listeners. *)
Definition init_inv (w : window W) : Prop :=
  (header_init_done w = false /\ widgets w = [] /\ bindings w = []) \/
  (header_init_done w = true /\
   ((widgets w = [] /\ bindings w = []) \/
    (exists m, widgets w = [m] /\ bindings w = map (pair 0) setup_bindings))).

Lemma init_inv_fresh b p : init_inv (fresh b p).
Proof. left. done. Qed.

Lemma page_step_widget_shape i ev w :
  exists ms, widgets (page_step (OnWidget i ev) w) = ms /\ length ms = length (widgets w) /\
             bindings (page_step (OnWidget i ev) w) = bindings w /\
             header_init_done (page_step (OnWidget i ev) w) = header_init_done w.
Proof.
  simpl. repeat case_match; eexists; (split; [reflexivity|]); simpl; rewrite ?length_insert; done.
Qed.

Lemma init_inv_step e w : init_inv w -> init_inv (page_step e w).
Proof.
  intros Hw. destruct e as [|x p|i ev]; [| exact Hw |].
  - unfold page_step, initHeader. destruct Hw as [(Hd & Hws & Hbs) | (Hd & Hrest)]; rewrite Hd.
    + repeat case_match; simpl; right; rewrite ?Hws, ?Hbs; (split; [done|]); eauto.
    + right. by split.
  - destruct (page_step_widget_shape i ev w) as (ms & Hms & Hl & Hb & Hd).
    unfold init_inv in *. rewrite Hms, Hb, Hd.
    destruct Hw as [(? & Hws & ?) | (? & [(Hws & ?) | (m & Hws & ?)])]; rewrite Hws in Hl.
    + left. destruct ms; simpl in *; [done|lia].
    + right. split; [done|]. left. destruct ms; simpl in *; [done|lia].
    + right. split; [done|]. right. destruct ms as [|m' [|]]; simpl in *; try lia. eauto.
Qed.

Lemma init_inv_run es w : init_inv w -> init_inv (page_run es w).
Proof.
  unfold page_run. revert w. induction es as [|e es IH]; intros w Hw; simpl; auto using init_inv_step.
Qed.

Lemma initHeader_when_done w : header_init_done w = true -> initHeader w = w.
Proof. unfold initHeader. by intros ->. Qed.

Lemma header_init_done_initHeader w : header_init_done (initHeader w) = true.
Proof. unfold initHeader. repeat case_match; done. Qed.

(** The page state after an early call: set up once and for all, with no
    widget. *)
Lemma disabled_run es w :
  header_init_done w = true -> widgets w = [] -> widgets (page_run es w) = [].
Proof.
  unfold page_run. revert w. induction es as [|[|x p|i ev] es IH]; intros w Hd Hw; simpl; [done|..].
  - rewrite initHeader_when_done by done. by apply IH.
  - by apply IH.
  - rewrite Hw. simpl. by apply IH.
Qed.

(** On a page with one widget, events delivered to it are the widget's run;
    the listeners and the flag stay. *)
Lemma page_run_single_widget evs m m' w :
  widgets w = [m] -> widget_run evs m = Some m' ->
  widgets (page_run (map (OnWidget 0) evs) w) = [m'] /\
  bindings (page_run (map (OnWidget 0) evs) w) = bindings w.
Proof.
  unfold page_run. revert m w. induction evs as [|ev evs IH]; intros m w Hw Hr; simpl in *; [by simplify_eq|].
  rewrite Hw. simpl. destruct (widget_step ev m) as [m1|]; [|done]. simpl in Hr.
  by apply (IH m1 (set_widgets [m1] w)).
Qed.

(** C9: whatever the page does (any number of [initHeader] calls, the
    header markup inserted at any time, events to the widget), at most one
    widget is ever set up, and then with exactly one listener of each kind. *)
Theorem init_at_most_once b p es :
  let w := page_run es (fresh b p) in
  (widgets w = [] /\ bindings w = []) \/
  (exists m, widgets w = [m] /\ bindings w = map (pair 0) setup_bindings).
Proof.
  simpl. destruct (init_inv_run es (fresh b p) (init_inv_fresh b p)) as [(_ & ? & ?) | (_ & ?)];
    auto.
Qed.

(** [initHeader] is idempotent: a second call changes nothing. *)
Theorem initHeader_idempotent w : initHeader (initHeader w) = initHeader w.
Proof. apply initHeader_when_done, header_init_done_initHeader. Qed.

(** C25: a call to [initHeader] made before the header markup is in the
    document disables the widget for good: the flag is set before the
    elements are looked up, so no later call, even after the markup is
    inserted, sets anything up. *)
Theorem early_call_disables b p es :
  b = None \/ p = None -> widgets (page_run (CallInitHeader :: es) (fresh b p)) = [].
Proof.
  intros Hbp. change (page_run (CallInitHeader :: es) (fresh b p))
    with (page_run es (initHeader (fresh b p))).
  apply disabled_run; [apply header_init_done_initHeader|].
  unfold initHeader; simpl. destruct Hbp as [-> | ->]; repeat case_match; done.
Qed.
End Page.

(** ** The dropdown as the page's widget *)

#[export] Instance menu_widget : Widget menu := {|
  widget_create x p := initial x p.1 p.2;
  widget_step := step;
|}.

(** ** Instances *)

Lemma early_call_disables_witness :
  widgets (page_run [CallInitHeader; InsertHeader (Some "false") ([], false); CallInitHeader]
             (fresh (W := menu) None None)) = [].
Proof. apply early_call_disables. by left. Defined.
