(* ===== verification/Session.v ===== *)
(** * Session: the page, the widget and the network together

    The first time the user opens the menu, three parts of the program act
    in turn: the host page calls [initHeader] (lines 6-14), which creates
    the widget and binds its listeners; the trigger's click listener
    (lines 85-91) shows the loading note and calls [loadMenuHtml], which
    suspends on [fetch]; the event loop then resumes it on the settlement
    of [fetch] and of [res.text()] (lines 19-42), after which the listener
    runs [openMenu] (line 93).  This file composes [Init]'s page, [Menu]'s
    handlers and [Settle]'s loop: whatever the network answers, the page
    ends with one widget, loaded, open and in agreement with its trigger,
    having issued exactly one request. *)

From stdpp Require Import base list strings.
From Stdlib Require Import Lia.
From S2P Require Import Prelude Dom Menu MenuInv Settle Interaction Init.

(** The page's run of the dropdown is the dropdown's own run. *)
Lemma menu_widget_run evs (m : menu) : widget_run evs m = run evs m.
Proof. revert m. induction evs as [|ev evs IH]; intros m; simpl; [done|]. by destruct (step ev m). Qed.

(** The first click on the trigger of a fresh widget: the loading note is
    shown and one call suspends on [fetch]; [document] has no listener. *)
Lemma first_click e0 c0 t :
  e0 <> Some "true" ->
  let m1 := dispatch_click OnBtn (initial e0 c0 t) in
  weight m1 = 2 /\ requests m1 = 1 /\ synced m1.
Proof.
  intros He m1. assert (Hs : synced m1) by (apply (synced_step (UserClick OnBtn) (initial e0 c0 t)); [by apply synced_initial|done]).
  split_and!; [..|exact Hs]; subst m1; unfold dispatch_click, btnClickHandler;
    rewrite bool_decide_false by done; done.
Qed.

(** The page after [initHeader] on the host's markup. *)
Lemma initHeader_fresh x p :
  widgets (initHeader (fresh (W := menu) (Some x) (Some p))) = [initial x p.1 p.2] /\
  bindings (initHeader (fresh (W := menu) (Some x) (Some p))) = map (pair 0) setup_bindings.
Proof. done. Qed.

(** C18: on a page that has the header markup with a collapsed trigger,
    [initHeader], a click on the trigger and the settlements the event loop
    then delivers (whatever [fetch] and [res.text()] give) leave one widget
    with its four listeners, loaded, open, with [aria-expanded="true"], no
    call suspended, and exactly one request issued. *)
Theorem page_first_open x p r b :
  x <> Some "true" ->
  let m1 := dispatch_click OnBtn (initial x p.1 p.2) in
  let w := page_run (CallInitHeader :: OnWidget 0 (UserClick OnBtn) ::
                     map (OnWidget 0) (drain_events 2 r b m1)) (fresh (Some x) (Some p)) in
  bindings w = map (pair 0) setup_bindings /\
  exists m, widgets w = [m] /\ menu_loaded m = true /\ open_class m = true /\
            aria_expanded m = Some "true" /\ weight m = 0 /\ requests m = 1.
Proof.
  intros Hx m1 w. destruct (first_click x p.1 p.2 Hx) as (Hw1 & Hr1 & Hs1). fold m1 in Hw1, Hr1, Hs1.
  destruct (drain_spec 2 r b m1 ltac:(lia)) as (Hrun & Hall & Hw & Hdone).
  destruct (Hdone ltac:(lia)) as [Hl Ho].
  destruct (page_run_single_widget (drain_events 2 r b m1) m1 (drain 2 r b m1)
              (page_step (OnWidget 0 (UserClick OnBtn)) (initHeader (fresh (Some x) (Some p)))))
    as [Hws Hbs]; [done|by rewrite menu_widget_run|].
  split; [exact Hbs|]. exists (drain 2 r b m1). split_and!; try done.
  - apply synced_open_expanded; [|done]. by eapply synced_run.
  - transitivity (requests m1); [|exact Hr1].
    by apply (requests_settlements (drain_events 2 r b m1)).
Qed.

(** ** Instances *)

Lemma page_first_open_witness :
  Some "false" <> Some "true" /\
  let m1 := dispatch_click OnBtn (initial (Some "false") [] false) in
  let r := FetchResponse 200 "OK" in let b := BodyText sample_menu in
  let w := page_run (CallInitHeader :: OnWidget 0 (UserClick OnBtn) ::
                     map (OnWidget 0) (drain_events 2 r b m1)) (fresh (Some (Some "false")) (Some ([], false))) in
  bindings w = map (pair 0) setup_bindings /\
  exists m, widgets w = [m] /\ menu_loaded m = true /\ open_class m = true /\
            aria_expanded m = Some "true" /\ weight m = 0 /\ requests m = 1.
Proof. split; [discriminate|]. apply (page_first_open (Some "false") ([], false)). discriminate. Defined.
